(** * QA subsystem: a shallow embedding of the Python sources

    The development follows the layout of the repository:

    - [Py]            the fragment of Python's run-time behaviour the sources
                      rely on (exception classes, results that either return
                      or raise, state passing);
    - [DataHandling]  [utils/data_handling_utils.py];
    - [Application]   [application.py] (the HTTP handlers);
    - [Evaluation]    [dev/evaluation/main.py];
    - [FineTune]      [system/fine_tune_model.py];
    - [Cli]           [main.py].

    Calls into third-party libraries (the pipeline framework, the sentence
    tokenizer, the random generator) are section variables: every theorem
    holds whatever those calls compute. *)

From Stdlib Require Import ZArith NArith Lia List Bool Ascii String Permutation.
From stdpp Require Import base option list gmap sets strings.

Import ListNotations.
Open Scope string_scope.
Open Scope list_scope.

(* ===================================================================== *)
(** * Python run-time fragment *)
(* ===================================================================== *)

Module Py.

(** The built-in exception classes that occur in the modelled code. *)
Inductive pyclass :=
| BaseException | KeyboardInterrupt | SystemExit | GeneratorExit
| Exception
| StopIteration | RuntimeError | TypeError | AttributeError | ValueError
| KeyError | NameError | UnboundLocalError
| OSError | FileNotFoundError | FileExistsError | IsADirectoryError.

#[global] Instance pyclass_eq_dec : EqDecision pyclass.
Proof. solve_decision. Defined.

(** Proper ancestors of a class, nearest first (the tail of its MRO,
    [object] left out). *)
Definition ancestors (c : pyclass) : list pyclass :=
  match c with
  | BaseException => []
  | KeyboardInterrupt | SystemExit | GeneratorExit | Exception => [BaseException]
  | StopIteration | RuntimeError | TypeError | AttributeError | ValueError
  | NameError | OSError => [Exception; BaseException]
  | KeyError => [Exception; BaseException]
  | UnboundLocalError => [NameError; Exception; BaseException]
  | FileNotFoundError | FileExistsError | IsADirectoryError =>
      [OSError; Exception; BaseException]
  end.

Definition issubclass (c d : pyclass) : bool :=
  bool_decide (d ∈ c :: ancestors c).

(** An exception object: its class and the text [str(e)] gives. *)
Record exn := mk_exn { exn_class : pyclass; exn_str : string }.

Definition isinstance (e : exn) (c : pyclass) : bool :=
  issubclass (exn_class e) c.

(** What evaluating a call gives: a value, or a raised exception. *)
Inductive outcome (A : Type) :=
| Returned (a : A)
| Raised (e : exn).
Arguments Returned {A} a.
Arguments Raised {A} e.

(** Effectful code over a state [St]: state in, outcome and state out.
    A raise keeps the state reached so far. *)
Definition M (St A : Type) : Type := St -> outcome A * St.

Definition ret {St A} (a : A) : M St A := fun s => (Returned a, s).
Definition raise {St A} (e : exn) : M St A := fun s => (Raised e, s).

Definition bind {St A B} (m : M St A) (k : A -> M St B) : M St B :=
  fun s =>
    match m s with
    | (Returned a, s') => k a s'
    | (Raised e, s') => (Raised e, s')
    end.

Definition get {St} : M St St := fun s => (Returned s, s).
Definition modify {St} (f : St -> St) : M St unit := fun s => (Returned tt, f s).

(** Lifting a call that cannot touch the state. *)
Definition lift {St A} (o : outcome A) : M St A := fun s => (o, s).

(** [try: body  except cls as e: handler e]. *)
Definition try_except {St A} (body : M St A) (cls : pyclass)
           (handler : exn -> M St A) : M St A :=
  fun s =>
    match body s with
    | (Returned a, s') => (Returned a, s')
    | (Raised e, s') =>
        if isinstance e cls then handler e s' else (Raised e, s')
    end.

(** [for x in xs: body x]. *)
Fixpoint for_each {St A} (xs : list A) (body : A -> M St unit) : M St unit :=
  match xs with
  | [] => ret tt
  | x :: rest => bind (body x) (fun _ => for_each rest body)
  end.

(** [s.split("/")] *)
Fixpoint split_slash (s : string) : list string :=
  match s with
  | EmptyString => [EmptyString]
  | String c rest =>
      if Ascii.eqb c "/" then EmptyString :: split_slash rest
      else match split_slash rest with
           | [] => [String c EmptyString]
           | w :: ws => String c w :: ws
           end
  end.

(** The components [pathlib] keeps of a path: it drops the empty ones and
    the ["."] ones, and with them doubled and trailing separators. *)
Definition components (s : string) : list string :=
  List.filter (fun c => negb (String.eqb c "") && negb (String.eqb c "."))
              (split_slash s).

(** One more component below a directory. *)
Definition child (dir c : string) : string :=
  if String.eqb dir "/" then "/" +:+ c
  else if String.eqb dir "." || String.eqb dir "" then c
  else dir +:+ "/" +:+ c.

(** Whether a path starts at the root. *)
Definition is_absolute (p : string) : bool :=
  match p with
  | String c _ => Ascii.eqb c "/"
  | EmptyString => false
  end.

(** [str(Path(dir) / rel)], for a [dir] as [Path] prints it: the components
    of [rel] are added below [dir]; a [rel] that starts with a separator
    replaces [dir]. *)
Definition joinpath (dir rel : string) : string :=
  fold_left child (components rel) (if is_absolute rel then "/" else dir).

(** The part of a path before its last separator, when it has one. *)
Fixpoint before_last_slash (s : string) : option string :=
  match s with
  | EmptyString => None
  | String c rest =>
      match before_last_slash rest with
      | Some d => Some (String c d)
      | None => if Ascii.eqb c "/" then Some EmptyString else None
      end
  end.

(** [Path(p).parent]: the directory a path places its file in. *)
Definition parent (p : string) : string :=
  match before_last_slash p with
  | None => "."
  | Some EmptyString => "/"
  | Some d => d
  end.

(** [os.path.basename]: what follows the last separator. *)
Fixpoint basename_from (s tail : string) : string :=
  match s with
  | EmptyString => tail
  | String c rest =>
      if Ascii.eqb c "/" then basename_from rest rest else basename_from rest tail
  end.

Definition os_path_basename (p : string) : string := basename_from p p.

Module Notations.
Notation "x <~ c ; k" := (bind c (fun x => k))
  (at level 20, c at level 100, k at level 200, only parsing).
Notation "c ;> k" := (bind c (fun _ => k))
  (at level 100, k at level 200, right associativity, only parsing).
End Notations.

End Py.

Import Py.
Import Py.Notations.

(* ===================================================================== *)
(** * utils/data_handling_utils.py *)
(* ===================================================================== *)

Module DataHandling.

(** ** Text

    A Python [str] whose characters matter is a list of code points. *)

Definition text := list N.

(** The code points of a literal. *)
Definition py (s : string) : text :=
  List.map N_of_ascii (list_ascii_of_string s).

Definition LF : N := 10.

(** [str.isspace] on one code point (the interpreter's whitespace table). *)
Definition isspace (c : N) : bool :=
  ((9 <=? c) && (c <=? 13) || (28 <=? c) && (c <=? 32)
   || (c =? 133) || (c =? 160) || (c =? 5760)
   || (8192 <=? c) && (c <=? 8202)
   || (c =? 8232) || (c =? 8233) || (c =? 8239) || (c =? 8287)
   || (c =? 12288))%N.

Fixpoint lstrip (s : text) : text :=
  match s with
  | [] => []
  | c :: rest => if isspace c then lstrip rest else s
  end.

Definition rstrip (s : text) : text := rev (lstrip (rev s)).

(** [s.strip()] *)
Definition strip (s : text) : text := rstrip (lstrip s).

(** [sep.join(xs)] *)
Fixpoint join (sep : text) (xs : list text) : text :=
  match xs with
  | [] => []
  | [x] => x
  | x :: rest => x ++ sep ++ join sep rest
  end.

(** ** Regular expressions (the fragment [remove_incomplete_sentences] uses)

    [matches r s k] holds when a prefix of [s] matches [r] and the rest
    satisfies the continuation [k]; the search tries every split, as the
    backtracking engine does. *)

Inductive regex :=
| Class (p : N -> bool)       (* one character of a class *)
| StarClass (p : N -> bool)   (* [c*] for a one-character [c] *)
| Dollar                      (* [$], no MULTILINE flag *)
| Cat (r1 r2 : regex).

(** [$]: at the end of the string, or just before a newline that ends it. *)
Definition at_dollar (s : text) : bool :=
  match s with
  | [] => true
  | [c] => (c =? LF)%N
  | _ => false
  end.

Fixpoint matches (r : regex) (s : text) (k : text -> bool) : bool :=
  match r with
  | Class p =>
      match s with
      | c :: rest => p c && k rest
      | [] => false
      end
  | StarClass p =>
      (fix star (s : text) : bool :=
         k s || match s with
                | c :: rest => p c && star rest
                | [] => false
                end) s
  | Dollar => at_dollar s && k s
  | Cat r1 r2 => matches r1 s (fun rest => matches r2 rest k)
  end.

(** [pattern.match(s)] as a truth value: some prefix of [s] matches. *)
Definition re_match (r : regex) (s : text) : bool :=
  matches r s (fun _ => true).

(** [.] without DOTALL: any character except a newline. *)
Definition dot (c : N) : bool := negb (c =? LF)%N.

(** The class [[\.\;!]]. *)
Definition sentence_end_class (c : N) : bool :=
  ((c =? 46) || (c =? 59) || (c =? 33))%N.

(** [re.compile(r'.*[\.\;!]$')] *)
Definition sentence_end_regex : regex :=
  Cat (StarClass dot) (Cat (Class sentence_end_class) Dollar).

Section RemoveIncompleteSentences.

(** [nltk.sent_tokenize]: the sentence tokenizer of the library. *)
Variable sent_tokenize : text -> list text.

(** [remove_incomplete_sentences(text)].  ([nltk.download('punkt')] only
    fetches the tokenizer's data.) *)
Definition remove_incomplete_sentences (t : text) : text :=
  let sentences := sent_tokenize t in
  let complete_sentences :=
    List.filter (fun sentence => re_match sentence_end_regex (strip sentence))
                sentences in
  join (py " ") complete_sentences.

(** The description of the function: a sentence is kept when its
    trimmed text ends in [.], [;] or [!]. *)
Definition ends_in_terminal (s : text) : bool :=
  match rev s with
  | c :: _ => sentence_end_class c
  | [] => false
  end.

Definition described_remove_incomplete_sentences (t : text) : text :=
  join (py " ")
       (List.filter (fun sentence => ends_in_terminal (strip sentence))
                    (sent_tokenize t)).

End RemoveIncompleteSentences.

(** ** split_squad_dataset *)

Record qa := { qa_question : string; qa_answers : list string }.
Record paragraph := { context : string; qas : list qa }.
Record article := { title : string; paragraphs : list paragraph }.

(** The inner loop: [for paragraph in article["paragraphs"]:
    counter += len(paragraph["qas"])]. *)
Definition count_paragraphs (ps : list paragraph) (counter : Z) : Z :=
  fold_left (fun counter p => counter + Z.of_nat (length (qas p)))%Z ps counter.

(** [SquadData(data).count()]: the number of questions of the data set
    (the library counts one per entry of every paragraph's [qas]). *)
Definition SquadData_count (data : list article) : Z :=
  fold_left (fun c a => count_paragraphs (paragraphs a) c) data 0%Z.

(** [round(x)] on an exact ratio: to the nearest integer, ties to even. *)
Definition py_round (num den : Z) : Z :=
  let q := (num / den)%Z in
  let r := (2 * (num mod den))%Z in
  if (r <? den)%Z then q
  else if (den <? r)%Z then (q + 1)%Z
  else if Z.even q then q else (q + 1)%Z.

(** [round(num_of_examples * split_ratio)] for a ratio [rnum/rden], rounding
    the exact product.  The source multiplies in binary floating point and
    rounds that product.  At the default ratio 0.1 the two agree: the double
    nearest to one tenth is off by a relative 2^-54, which is below half a
    unit in the last place of the product, so the rounded integer is the
    same.  At other ratios the floating-point product can fall on the other
    side of a tie (110 * 0.55, 45 * 0.7), so what depends on the value of
    the threshold is stated at the ratio 1/10, or for the loop with the
    threshold as it is handed to it. *)
Definition split_threshold (num_of_examples rnum rden : Z) : Z :=
  py_round (num_of_examples * rnum) rden.

(** The [for article in data] loop, with its [break]: the state is
    [counter] and [test_set]. *)
Fixpoint split_loop (threshold : Z) (data : list article)
         (counter : Z) (test_set : list article) : Z * list article :=
  match data with
  | [] => (counter, test_set)
  | a :: rest =>
      let counter := count_paragraphs (paragraphs a) counter in
      if (counter >=? threshold)%Z then (counter, test_set)
      else split_loop threshold rest counter (test_set ++ [a])
  end.

(** What one call leaves behind: the two files and the printed counts. *)
Record split_output := {
  train_file : list article;                (* train_file.json, ["data"] *)
  dev_file : list article;                  (* dev_file.json, ["data"] *)
  printed_train_instances : Z;
  printed_dev_instances : Z
}.

Section SplitSquadDataset.

(** [random.shuffle]: the order it leaves the list in. *)
Variable shuffle : list article -> list article.

Definition split_squad_dataset (data : list article) (rnum rden : Z) : split_output :=
  let num_of_examples := SquadData_count data in
  let data := shuffle data in
  let '(counter, test_set) :=
    split_loop (split_threshold num_of_examples rnum rden) data 0%Z [] in
  {| train_file := drop (length test_set) data;
     dev_file := test_set;
     printed_train_instances := (num_of_examples - counter)%Z;
     printed_dev_instances := counter |}.

End SplitSquadDataset.

(** The cumulative question counts of the non-empty prefixes of [data]. *)
Fixpoint cumulative_counts (data : list article) (counter : Z) : list Z :=
  match data with
  | [] => []
  | a :: rest =>
      let counter := count_paragraphs (paragraphs a) counter in
      counter :: cumulative_counts rest counter
  end.

(** ** join_punctuation

    A generator function: calling it runs nothing; each [next] resumes the
    body up to the following [yield]. *)

(** [sep.join(xs)] on token strings. *)
Fixpoint str_join (sep : string) (xs : list string) : string :=
  match xs with
  | [] => ""
  | [x] => x
  | x :: rest => x +:+ sep +:+ str_join sep rest
  end.

(** [nxt in characters], with [characters = set(characters)]: the token is
    one of the one-character strings of the set. *)
Definition in_characters (characters : string) (nxt : string) : bool :=
  existsb (fun c => String.eqb nxt (String c EmptyString))
          (list_ascii_of_string characters).

(** Where the body is suspended; [seq] is what the iterator has left. *)
Inductive frame :=
| NotStarted (seq : list string)
| AtLoopYield (nxt : string) (seq : list string)   (* at [yield current] in the loop *)
| AtLastYield (seq : list string)                  (* at the [yield current] after it *)
| Finished.

Record generator := { gen_characters : string; gen_frame : frame }.

(** What one [next(g)] gives. *)
Inductive advance :=
| Yielded (token : string)
| Stopped (value : option string)   (* StopIteration, with the return value *)
| Failed (e : exn).

(** The [for nxt in seq] loop, run to its next [yield]. *)
Fixpoint run_loop (characters : string) (current : string) (seq : list string)
  : advance * frame :=
  match seq with
  | [] => (Yielded current, AtLastYield [])
  | nxt :: rest =>
      if in_characters characters nxt
      then run_loop characters (current +:+ nxt) rest
      else (Yielded current, AtLoopYield nxt rest)
  end.

(** [join_punctuation(seq, characters)]: the generator object. *)
Definition join_punctuation (seq : list string) (characters : string) : generator :=
  {| gen_characters := characters; gen_frame := NotStarted seq |}.

Definition default_characters : string := ".,;?!:".

(** [next(g)].  In a generator body the StopIteration of [next(seq)] on an
    exhausted iterator surfaces as a RuntimeError (PEP 479). *)
Definition gen_next (g : generator) : advance * generator :=
  let characters := gen_characters g in
  let '(a, f) :=
    match gen_frame g with
    | NotStarted seq =>
        match seq with
        | [] => (Failed (mk_exn RuntimeError "generator raised StopIteration"),
                 Finished)
        | current :: rest => run_loop characters current rest
        end
    | AtLoopYield nxt rest => run_loop characters nxt rest
    | AtLastYield rest => (Stopped (Some (str_join " " rest)), Finished)
    | Finished => (Stopped None, Finished)
    end in
  (a, {| gen_characters := characters; gen_frame := f |}).

(** [list(g)], at most [fuel] advances: the tokens yielded and how the
    iteration ended ([None]: the fuel ran out first). *)
Fixpoint drain (fuel : nat) (g : generator) : list string * option advance :=
  match fuel with
  | O => ([], None)
  | S fuel =>
      match gen_next g with
      | (Yielded t, g') => let '(ts, fin) := drain fuel g' in (t :: ts, fin)
      | (a, _) => ([], Some a)
      end
  end.

(** ** get_query_doc_pairs_from_dpr_file *)

Record positive_ctx := { ctx_title : string; ctx_text : string }.
Record dpr_record := { question : string; positive_ctxs : list positive_ctx }.
Record query_doc_pair := { pair_question : string; pair_document : string }.

(** The local names [question] and [document]: unbound until assigned. *)
Record dpr_locals := { l_question : option string; l_document : option string }.

(** [for positive_ctx in d["positive_ctxs"]: document = positive_ctx["text"]] *)
Definition dpr_inner (ctxs : list positive_ctx) (document : option string)
  : option string :=
  fold_left (fun _ positive_ctx => Some (ctx_text positive_ctx)) ctxs document.

(** [for d in data: question = d["question"]; ...] *)
Definition dpr_outer (data : list dpr_record) (l : dpr_locals) : dpr_locals :=
  fold_left
    (fun l d => {| l_question := Some (question d);
                   l_document := dpr_inner (positive_ctxs d) (l_document l) |})
    data l.

Definition unbound (name : string) : exn :=
  mk_exn UnboundLocalError
         ("local variable '" +:+ name +:+ "' referenced before assignment").

(** [get_query_doc_pairs_from_dpr_file], on the parsed content of the file.
    The [append] follows the outer loop (it is indented as the [for]). *)
Definition get_query_doc_pairs_from_dpr_file (data : list dpr_record)
  : outcome (list query_doc_pair) :=
  let query_doc_pairs := [] in
  let l := dpr_outer data {| l_question := None; l_document := None |} in
  match l_question l with
  | None => Raised (unbound "question")
  | Some q =>
      match l_document l with
      | None => Raised (unbound "document")
      | Some doc =>
          Returned (query_doc_pairs ++ [{| pair_question := q; pair_document := doc |}])
      end
  end.

(** ** Dictionaries

    A [dict] whose order matters is the list of its items in insertion
    order; the keys of a dictionary are distinct. *)

Section Dict.

Context {K V : Type} `{EqDecision K}.

(** [d[k] = v]: an existing key keeps its place, a new one goes last. *)
Fixpoint dict_set (k : K) (v : V) (d : list (K * V)) : list (K * V) :=
  match d with
  | [] => [(k, v)]
  | (k', v') :: rest =>
      if decide (k' = k) then (k', v) :: rest else (k', v') :: dict_set k v rest
  end.

(** [d.get(k)] *)
Fixpoint dict_get (k : K) (d : list (K * V)) : option V :=
  match d with
  | [] => None
  | (k', v') :: rest => if decide (k' = k) then Some v' else dict_get k rest
  end.

End Dict.

(** ** remove_second_answers_occurrence *)

(** The loop over [result.items()]: the state is [new_result] and
    [key_count]. *)
Fixpoint remove_second_loop {V} (items : list (string * V))
         (new_result : list (string * V)) (key_count : nat) : list (string * V) :=
  match items with
  | [] => new_result
  | (key, value) :: rest =>
      if String.eqb key "answers"
      then
        let key_count := key_count + 1 in
        if Nat.eqb key_count 2
        then remove_second_loop rest new_result key_count          (* continue *)
        else remove_second_loop rest (dict_set key value new_result) key_count
      else remove_second_loop rest (dict_set key value new_result) key_count
  end.

Definition remove_second_answers_occurrence {V} (result : list (string * V))
  : list (string * V) :=
  remove_second_loop result [] 0.

(** ** post_process_generator_answers *)

(** An answer object: its text and what else it carries. *)
Record answer_obj := { answer : text; answer_score : Z }.

(** What a key of a generator result is bound to. *)
Inductive result_value :=
| VAnswers (l : list answer_obj)
| VDocuments (l : list text)
| VStr (s : text).

Section PostProcess.

Variable sent_tokenize : text -> list text.

(** [answer_obj.answer = remove_incomplete_sentences(answer_obj.answer)] *)
Definition process_answer (a : answer_obj) : answer_obj :=
  {| answer := remove_incomplete_sentences sent_tokenize (answer a);
     answer_score := answer_score a |}.

(** [post_process_generator_answers(result)].  Iterating a value that holds
    no answer objects fails at its first element, which has no [answer]
    attribute. *)
Definition post_process_generator_answers (result : list (string * result_value))
  : outcome (list (string * result_value)) :=
  match dict_get "answers" result with
  | None => Raised (mk_exn KeyError "'answers'")
  | Some (VAnswers l) =>
      Returned (dict_set "answers" (VAnswers (List.map process_answer l)) result)
  | Some (VDocuments []) | Some (VStr []) =>
      Returned (dict_set "answers" (VAnswers []) result)
  | Some _ => Raised (mk_exn AttributeError "object has no attribute 'answer'")
  end.

End PostProcess.

(** ** translate_docs and split_and_translate *)

(** [s.split(sep)] for a one-character separator; [cur] is the piece read
    so far. *)
Fixpoint split_on (sep : N) (s : text) (cur : text) : list text :=
  match s with
  | [] => [cur]
  | c :: rest =>
      if (c =? sep)%N then cur :: split_on sep rest []
      else split_on sep rest (cur ++ [c])
  end.

(** [len(doc.strip().split(' '))] *)
Definition num_tokens (doc : text) : nat :=
  length (split_on 32 (strip doc) []).

(** [l.insert(idx, x)]: an index past the end appends. *)
Definition list_insert_at {A} (idx : nat) (x : A) (l : list A) : list A :=
  take idx l ++ x :: drop idx l.

Section Translate.

Variables (translator preprocessor : Type).

(** [TransformersTranslator(model_name_or_path=..., use_gpu=..., max_seq_len=...)] *)
Variable TransformersTranslator : bool -> nat -> outcome translator.

(** [translator.translate_batch(documents=docs)[0]] *)
Variable translate_batch_first : translator -> list text -> outcome (list text).

(** [PreProcessor(language='en', split_by='word', split_length=...)] *)
Variable PreProcessor : nat -> outcome preprocessor.

(** [[doc.content for doc in preprocessor.process([Document(content=doc)])]] *)
Variable process_contents : preprocessor -> text -> outcome (list text).

Definition translate_docs (docs : list text) (use_gpu : bool) : outcome (list text) :=
  let max_seq_len := 512 in
  match TransformersTranslator use_gpu max_seq_len with
  | Raised e => Raised e
  | Returned translator =>
      match translate_batch_first translator docs with
      | Returned t_docs => Returned t_docs
      | Raised e =>
          if isinstance e AttributeError then Returned [py "<ukn>"] else Raised e
      end
  end.

(** The [for idx, doc in enumerate(docs)] loop.  The state is the list
    [docs] itself, which the loop pops from while it iterates: [i] is the
    position of the list iterator (and the count of [enumerate]), and the
    loop ends when [i] is past the end of the list as it is then.  [fuel]
    bounds the rounds. *)
Fixpoint scan_docs (fuel : nat) (pre : preprocessor) (max_seq_len : nat) (i : nat)
         (idx_to_splitted_docs : list (nat * list text))
  : M (list text) (list (nat * list text)) :=
  match fuel with
  | O => ret idx_to_splitted_docs
  | S fuel =>
      fun docs =>
        match docs !! i with
        | None => (Returned idx_to_splitted_docs, docs)
        | Some doc =>
            if Nat.ltb max_seq_len (num_tokens doc)
            then
              let docs := delete i docs in                       (* docs.pop(idx) *)
              match process_contents pre doc with
              | Raised e => (Raised e, docs)
              | Returned splitted_docs =>
                  scan_docs fuel pre max_seq_len (S i)
                            (dict_set i splitted_docs idx_to_splitted_docs) docs
              end
            else scan_docs fuel pre max_seq_len (S i) idx_to_splitted_docs docs
        end
  end.

(** The loop over [idx_to_splitted_docs.items()]. *)
Fixpoint insert_translations (items : list (nat * list text)) (t_docs : list text)
  : outcome (list text) :=
  match items with
  | [] => Returned t_docs
  | (idx, splitted_docs) :: rest =>
      match translate_docs splitted_docs false with
      | Raised e => Raised e
      | Returned ts =>
          insert_translations rest (list_insert_at idx (join (py " ") ts) t_docs)
      end
  end.

(** [split_and_translate(docs, max_seq_len)], as a change of the caller's
    list [docs]. *)
Definition split_and_translate (max_seq_len : nat) : M (list text) (list text) :=
  pre <~ lift (PreProcessor max_seq_len) ;
  idx_to_splitted_docs <~ (fun docs => scan_docs (length docs) pre max_seq_len 0 [] docs) ;
  docs <~ get ;
  t_docs <~ lift (translate_docs docs false) ;
  lift (insert_translations idx_to_splitted_docs t_docs).

End Translate.

(** The elements at the odd positions (the second, the fourth, ...). *)
Fixpoint odd_positions {A} (l : list A) : list A :=
  match l with
  | _ :: y :: rest => y :: odd_positions rest
  | _ => []
  end.

(** ** is_english and remove_english_text *)

Section Language.

(** [langdetect.detect] with the seed fixed: the language code, or [None]
    where it raises LangDetectException. *)
Variable detect : text -> option string.



End Language.

(** ** What [list(join_punctuation(seq))] holds *)

(** The tokens the generator yields from [current] and the rest [seq]. *)
Fixpoint merged_tokens (characters : string) (current : string) (seq : list string)
  : list string :=
  match seq with
  | [] => [current]
  | nxt :: rest =>
      if in_characters characters nxt
      then merged_tokens characters (current +:+ nxt) rest
      else current :: merged_tokens characters nxt rest
  end.

(** All the characters of a token list, in order. *)
Definition characters_of (tokens : list string) : string :=
  fold_right String.append "" tokens.

End DataHandling.

(* ===================================================================== *)
(** * application.py *)
(* ===================================================================== *)

Module Application.

(** ** The objects a pipeline result holds *)

Inductive embedding :=
| NoEmbedding                    (* None *)
| Ndarray (v : list Z)           (* numpy array; components by their bit patterns *)
| PlainList (v : list Z).        (* what [tolist()] gives *)

Record Document := {
  doc_content : string;
  doc_embedding : embedding
}.

Record Answer := { answer_text : string }.

#[warnings="-register-all"] Inductive pyobj :=
| PNone
| PStr (s : string)
| PDocument (d : Document)
| PAnswer (a : Answer)
| PList (l : list pyobj).

Definition is_list (v : pyobj) : bool :=
  match v with PList _ => true | _ => false end.

Record QueryRequest := {
  query : string;
  params : option (gmap string pyobj)
}.

(** [request.params or {}] *)
Definition params_or_empty (request : QueryRequest) : gmap string pyobj :=
  match params request with
  | Some p => if bool_decide (p = ∅) then ∅ else p
  | None => ∅
  end.

(** The two [if ... not in result] statements of both query handlers. *)
Definition backfill (result : gmap string pyobj) : gmap string pyobj :=
  let result :=
    match result !! "documents" with
    | None => <["documents" := PList []]> result
    | Some _ => result
    end in
  match result !! "answers" with
  | None => <["answers" := PList []]> result
  | Some _ => result
  end.

(** The key is bound, and bound to a list. *)
Definition binds_list (m : gmap string pyobj) (k : string) : Prop :=
  exists l, m !! k = Some (PList l).

(** What the pipeline binds to ["answers"] and ["documents"] is a list. *)
Definition lists_where_bound (m : gmap string pyobj) : Prop :=
  forall k v, k = "answers" \/ k = "documents" ->
              m !! k = Some v -> is_list v = true.

(** A response as the query handlers promise it for the pipeline result
    [res]: both keys bound, to the empty list where [res] lacks one, and to
    lists throughout when [res] binds lists. *)
Definition well_formed_response (res resp : gmap string pyobj) : Prop :=
  is_Some (resp !! "answers") /\ is_Some (resp !! "documents") /\
  (res !! "answers" = None -> resp !! "answers" = Some (PList [])) /\
  (res !! "documents" = None -> resp !! "documents" = Some (PList [])) /\
  (lists_where_bound res ->
   binds_list resp "answers" /\ binds_list resp "documents").

(** One line of the structured log (the elapsed time is left out). *)
Record log_record := {
  log_request : QueryRequest;
  log_response : gmap string pyobj
}.

Definition log_info (r : log_record) : M (list log_record) unit :=
  modify (fun log => log ++ [r]).

Section QueryHandlers.

(** [extractive_qa_pipeline.run] and [rag_pipeline.run]. *)
Variable extractive_qa_run : string -> gmap string pyobj -> outcome (gmap string pyobj).
Variable rag_run : string -> gmap string pyobj -> outcome (gmap string pyobj).

Definition ask_retriever_reader_pipeline (request : QueryRequest)
  : M (list log_record) (gmap string pyobj) :=
  let params := params_or_empty request in
  result <~ lift (extractive_qa_run (query request) params) ;
  let result := backfill result in
  log_info {| log_request := request; log_response := result |} ;>
  ret result.

Definition ask_rag_pipeline (request : QueryRequest)
  : M (list log_record) (gmap string pyobj) :=
  let params := params_or_empty request in
  result <~ lift (rag_run (query request) params) ;
  let result := backfill result in
  log_info {| log_request := request; log_response := result |} ;>
  ret result.

End QueryHandlers.

(** ** File upload *)

Record UploadFile := {
  filename : string;
  file_bytes : list Byte.byte
}.

(** What the handler can see and change: the files on disk (by path), the
    directories that exist, how many tokens the random generator has
    issued, and the shared document store's [recreate_index] attribute. *)
Record server := {
  disk : gmap string (list Byte.byte);
  directories : gset string;
  uuid_calls : nat;
  ds_recreate_index : bool
}.

Definition set_disk (f : gmap string (list Byte.byte) -> gmap string (list Byte.byte))
           (s : server) : server :=
  {| disk := f (disk s); directories := directories s;
     uuid_calls := uuid_calls s;
     ds_recreate_index := ds_recreate_index s |}.

(** [ds.recreate_index = True] *)
Definition set_recreate_index (s : server) : server :=
  {| disk := disk s; directories := directories s;
     uuid_calls := uuid_calls s; ds_recreate_index := true |}.

(** Whether [open(p, "wb")] succeeds: the directory of [p] has to exist,
    and [p] must not be a directory itself. *)
Definition can_write (s : server) (p : string) : bool :=
  bool_decide (parent p ∈ directories s) && negb (bool_decide (p ∈ directories s)).

(** [with file_path.open("wb") as fo: fo.write(data)]: opening creates the
    file or empties it; it raises when the directory is missing (a client
    file name with a ["/"] in it names one) or the path is a directory. *)
Definition write_file (p : string) (data : list Byte.byte) : M server unit :=
  fun s =>
    if negb (bool_decide (parent p ∈ directories s))
    then (Raised (mk_exn FileNotFoundError p), s)
    else if bool_decide (p ∈ directories s)
    then (Raised (mk_exn IsADirectoryError p), s)
    else (Returned tt, set_disk (fun d => <[p := data]> d) s).

(** [p.unlink()]: a missing file is an error. *)
Definition unlink (p : string) : M server unit :=
  fun s =>
    match disk s !! p with
    | Some _ => (Returned tt, set_disk (delete p) s)
    | None => (Raised (mk_exn FileNotFoundError p), s)
    end.

(** The truth value of an [Optional[bool]]. *)
Definition truthy (b : option bool) : bool :=
  match b with Some true => true | _ => false end.

(** [document.embedding = document.embedding.tolist()] when the embedding
    is an array. *)
Definition tolist_if_ndarray (d : Document) : Document :=
  match doc_embedding d with
  | Ndarray v => {| doc_content := doc_content d; doc_embedding := PlainList v |}
  | _ => d
  end.

(** One round of [for document in ...]: only a document has [.embedding]. *)
Definition convert_item (o : pyobj) : outcome pyobj :=
  match o with
  | PDocument d => Returned (PDocument (tolist_if_ndarray d))
  | _ => Raised (mk_exn AttributeError "object has no attribute 'embedding'")
  end.

Fixpoint convert_items (l : list pyobj) : outcome (list pyobj) :=
  match l with
  | [] => Returned []
  | o :: rest =>
      match convert_item o with
      | Raised e => Raised e
      | Returned o' =>
          match convert_items rest with
          | Raised e => Raised e
          | Returned rest' => Returned (o' :: rest')
          end
      end
  end.

(** [for document in result.get('documents', []): ...]; the documents are
    changed in place, so the result holds the converted ones. *)
Definition convert_embeddings (result : gmap string pyobj)
  : outcome (gmap string pyobj) :=
  match result !! "documents" with
  | None => Returned result
  | Some (PList docs) =>
      match convert_items docs with
      | Returned docs' => Returned (<["documents" := PList docs']> result)
      | Raised e => Raised e
      end
  | Some (PStr "") => Returned result
  | Some (PStr _) => Raised (mk_exn AttributeError "'str' object has no attribute 'embedding'")
  | Some _ => Raised (mk_exn TypeError "object is not iterable")
  end.

Section UploadFiles.

(** [Path(FILE_UPLOAD_PATH)], as it prints. *)
Variable FILE_UPLOAD_PATH : string.

(** [uuid.uuid4().hex], by the number of earlier calls. *)
Variable uuid4_hex : nat -> string.

(** [indexing_pipeline.run(file_paths=...)]: it reads the files and the
    store's [recreate_index] attribute. *)
Variable indexing_run :
  list string -> bool -> gmap string (list Byte.byte) -> outcome (gmap string pyobj).

Definition fresh_uuid : M server string :=
  fun s => (Returned (uuid4_hex (uuid_calls s)),
            {| disk := disk s; directories := directories s;
               uuid_calls := S (uuid_calls s);
               ds_recreate_index := ds_recreate_index s |}).

(** [Path(FILE_UPLOAD_PATH) / f"{uuid.uuid4().hex}_{file_to_upload.filename}"] *)
Definition upload_path (token : string) (f : UploadFile) : string :=
  joinpath FILE_UPLOAD_PATH (token +:+ "_" +:+ filename f).

(** The first loop: write every upload to disk, collecting the paths. *)
Fixpoint save_uploads (files : list UploadFile) (file_paths : list string)
  : M server (list string) :=
  match files with
  | [] => ret file_paths
  | file_to_upload :: rest =>
      token <~ fresh_uuid ;
      let file_path := upload_path token file_to_upload in
      write_file file_path (file_bytes file_to_upload) ;>
      save_uploads rest (file_paths ++ [file_path])
  end.

Definition run_indexing (file_paths : list string) : M server (gmap string pyobj) :=
  fun s => (indexing_run file_paths (ds_recreate_index s) (disk s), s).

Definition upload_files (files : list UploadFile)
           (keep_files recreate_index : option bool)
  : M server (gmap string pyobj) :=
  file_paths <~ save_uploads files [] ;
  (if truthy recreate_index then modify set_recreate_index else ret tt) ;>
  result <~ run_indexing file_paths ;
  result <~ lift (convert_embeddings result) ;
  (if negb (truthy keep_files)
   then for_each file_paths unlink
   else ret tt) ;>
  ret result.

(** The paths one request writes, from the state it starts in. *)
Definition request_paths (files : list UploadFile) (s : server) : list string :=
  imap (fun i f => upload_path (uuid4_hex (uuid_calls s + i)) f) files.

End UploadFiles.

End Application.

(* ===================================================================== *)
(** * dev/evaluation/main.py *)
(* ===================================================================== *)

Module Evaluation.

Record Document := { doc_id : string; doc_content : string }.

(** The disk and the interpreter's pending finalizers: the directories,
    the files by directory and name, the number of directories [mkdtemp]
    has made, and the temporary directories whose object still has its
    finalizer attached. *)
Record world := {
  dirs : gset string;
  files : gmap (string * string) string;
  mkdtemp_calls : nat;
  finalizers : gset string
}.

(** [tempfile.TemporaryDirectory]: the object holds the directory's name. *)
Record TemporaryDirectory := { name : string }.

(** Whether [d] is the directory [root] or lies below it. *)
Definition under (root d : string) : bool :=
  bool_decide (d = root) || String.prefix (root +:+ "/") d.

(** [shutil.rmtree(root)], as [TemporaryDirectory] calls it: the directory
    goes with all that is below it; a directory that is missing already is
    no error. *)
Definition rmtree (root : string) (w : world) : world :=
  {| dirs := filter (fun d => under root d = false) (dirs w);
     files := filter (fun kv => under root kv.1.1 = false) (files w);
     mkdtemp_calls := mkdtemp_calls w;
     finalizers := finalizers w |}.

(** [self._finalizer.detach()] *)
Definition detach (d : string) (w : world) : world :=
  {| dirs := dirs w; files := files w; mkdtemp_calls := mkdtemp_calls w;
     finalizers := finalizers w ∖ {[d]} |}.

(** [temp_dir.cleanup()]:
    [if self._finalizer.detach() or os.path.exists(self.name): rmtree]. *)
Definition cleanup (temp_dir : TemporaryDirectory) : M world unit :=
  modify (fun w =>
    if bool_decide (name temp_dir ∈ finalizers w)
       || bool_decide (name temp_dir ∈ dirs w)
    then rmtree (name temp_dir) (detach (name temp_dir) w)
    else w).

(** The object is released: its last reference goes (for a local variable,
    when the frame of the call is released), or the interpreter exits.  A
    finalizer that is still attached runs then and removes the directory;
    after [cleanup()] there is none. *)
Definition release (temp_dir : TemporaryDirectory) (w : world) : world :=
  if bool_decide (name temp_dir ∈ finalizers w)
  then rmtree (name temp_dir) (detach (name temp_dir) w)
  else w.

(** [Path(dir) / file_name] is kept as the pair; [str] of it is the path
    that [open] gets. *)
Definition path_str (p : string * string) : string := joinpath p.1 p.2.

(** Where a path places its file: the directory, and the name in it. *)
Definition locate (p : string * string) : string * string :=
  (parent (path_str p), os_path_basename (path_str p)).

(** Whether [open(p, "w")] succeeds: the directory of the file has to
    exist, and the path must not be a directory itself. *)
Definition can_write (w : world) (p : string * string) : bool :=
  bool_decide ((locate p).1 ∈ dirs w)
  && negb (bool_decide (path_str p ∈ dirs w)).

(** [with open(file_path, "w") as f: f.write(doc.content)] *)
Definition write_text (p : string * string) (content : string) : M world unit :=
  fun w =>
    if negb (bool_decide ((locate p).1 ∈ dirs w))
    then (Raised (mk_exn FileNotFoundError (path_str p)), w)
    else if bool_decide (path_str p ∈ dirs w)
    then (Raised (mk_exn IsADirectoryError (path_str p)), w)
    else (Returned tt,
          {| dirs := dirs w; files := <[locate p := content]> (files w);
             mkdtemp_calls := mkdtemp_calls w; finalizers := finalizers w |}).

(** An in-memory document store: the names of its default indices and the
    documents of every index. *)
Record InMemoryDocumentStore := {
  index : string;
  label_index : string;
  indexes : gmap string (list Document)
}.

(** [InMemoryDocumentStore()] *)
Definition new_InMemoryDocumentStore : InMemoryDocumentStore :=
  {| index := "document"; label_index := "label"; indexes := ∅ |}.

(** [document_store.delete_index(index=i)]: a missing index is no error. *)
Definition delete_index (i : string) (ds : InMemoryDocumentStore)
  : InMemoryDocumentStore :=
  {| index := index ds; label_index := label_index ds;
     indexes := delete i (indexes ds) |}.

(** The documents [i] holds once [add_eval_data] has filled the index,
    which was deleted before. *)
Definition fill_index (i : string) (docs : list Document)
           (ds : InMemoryDocumentStore) : InMemoryDocumentStore :=
  {| index := index ds; label_index := label_index ds;
     indexes := <[i := docs]> (indexes ds) |}.

(** [document_store.get_all_documents()]: without an argument it reads the
    store's default index. *)
Definition get_all_documents (ds : InMemoryDocumentStore) : list Document :=
  default [] (indexes ds !! index ds).

Section RunExperiment.

Variables (labels pipeline : Type).

(** The name [mkdtemp] picks, by the number of earlier calls. *)
Variable mkdtemp_name : nat -> string.

(** [document_store.add_eval_data(filename=..., doc_index=..., ...)]: the
    documents it makes of the file and writes to [doc_index]. *)
Variable add_eval_data : string -> outcome (list Document).

(** [document_store.get_all_labels_aggregated(drop_negative_labels=True,
    drop_no_answers=True)]: without an index it reads the store's default
    label index; it is given the documents of the default index, which is
    what the model follows of the store's default content. *)
Variable get_all_labels_aggregated : list Document -> outcome labels.

(** [Pipeline.load_from_yaml(path, pipeline_name)] *)
Variable load_from_yaml : string -> string -> outcome pipeline.

(** The keyword arguments of [Pipeline.execute_eval_run]. *)
Record eval_run_args := {
  index_pipeline : pipeline;
  query_pipeline : pipeline;
  evaluation_set_labels : labels;
  corpus_file_paths : list (string * string);
  experiment_name : string;
  experiment_run_name : string;
  evaluation_set_meta : string;
  add_isolated_node_eval : bool;
  experiment_tracking_tool : string;
  experiment_tracking_uri : string;
  query_params : list (string * list (string * Z));
  sas_model_name_or_path : string;
  sas_batch_size : Z;
  sas_use_gpu : bool;
  reuse_index : bool
}.

(** [Pipeline.execute_eval_run(...)]: it reads the corpus files. *)
Variable execute_eval_run :
  eval_run_args -> gmap (string * string) string -> outcome unit.

(** [tempfile.TemporaryDirectory()]: it makes the directory and attaches a
    finalizer to the object, which removes the directory if the object is
    released without a [cleanup()]. *)
Definition new_TemporaryDirectory : M world TemporaryDirectory :=
  fun w =>
    let d := mkdtemp_name (mkdtemp_calls w) in
    (Returned {| name := d |},
     {| dirs := {[d]} ∪ dirs w; files := files w;
        mkdtemp_calls := S (mkdtemp_calls w);
        finalizers := {[d]} ∪ finalizers w |}).

(** [index_eval_labels(document_store, eval_filename)]: the evaluation
    documents go to the index ['eval_docs'].  The store is changed in
    place; the model returns it. *)
Definition index_eval_labels (document_store : InMemoryDocumentStore)
           (eval_filename : string) : M world InMemoryDocumentStore :=
  let index := "eval_docs" in
  let label_index := "label_index" in
  let document_store := delete_index index document_store in
  let document_store := delete_index label_index document_store in
  docs <~ lift (add_eval_data eval_filename) ;
  ret (fill_index index docs document_store).

(** The loop of [get_eval_labels_and_paths]. *)
Fixpoint write_docs (tempdir : TemporaryDirectory) (docs : list Document)
         (file_paths : list (string * string)) : M world (list (string * string)) :=
  match docs with
  | [] => ret file_paths
  | doc :: rest =>
      let file_name := doc_id doc +:+ ".txt" in
      let file_path := (name tempdir, file_name) in
      write_text file_path (doc_content doc) ;>
      write_docs tempdir rest (file_paths ++ [file_path])
  end.

Definition get_eval_labels_and_paths (document_store : InMemoryDocumentStore)
           (tempdir : TemporaryDirectory)
  : M world (labels * list (string * string)) :=
  let docs := get_all_documents document_store in
  file_paths <~ write_docs tempdir docs [] ;
  evaluation_set_labels <~ lift (get_all_labels_aggregated docs) ;
  ret (evaluation_set_labels, file_paths).

Definition run_experiment (exp_name eval_filename pipeline_path run_name : string)
           (query_params : list (string * list (string * Z)))
  : M world unit :=
  temp_dir <~ new_TemporaryDirectory ;
  let eval_ds := new_InMemoryDocumentStore in
  eval_ds <~ index_eval_labels eval_ds eval_filename ;
  r <~ get_eval_labels_and_paths eval_ds temp_dir ;
  let '(evaluations_set_labels, file_paths) := r in
  query_pipeline <~ lift (load_from_yaml pipeline_path "query") ;
  index_pipeline <~ lift (load_from_yaml pipeline_path "indexing") ;
  (fun w =>
     (execute_eval_run
        {| index_pipeline := index_pipeline;
           query_pipeline := query_pipeline;
           evaluation_set_labels := evaluations_set_labels;
           corpus_file_paths := file_paths;
           experiment_name := exp_name;
           experiment_run_name := run_name;
           evaluation_set_meta := os_path_basename eval_filename;
           add_isolated_node_eval := true;
           experiment_tracking_tool := "mlflow";
           experiment_tracking_uri := "http://localhost:5000";
           query_params := query_params;
           sas_model_name_or_path :=
             "sentence-transformers/paraphrase-multilingual-mpnet-base-v2";
           sas_batch_size := 32;
           sas_use_gpu := true;
           reuse_index := false |}
        (files w), w)) ;>
  cleanup temp_dir.

(** The default of [query_params]. *)
Definition default_query_params : list (string * list (string * Z)) :=
  [("Retriever", [("top_k", 10%Z)]); ("Reader", [("top_k", 5%Z)])].

(** The directory [run_experiment] creates when started in [w]. *)
Definition temp_dir_of (w : world) : string := mkdtemp_name (mkdtemp_calls w).

(** A call of [run_experiment] to its end.  [temp_dir] is a local variable
    and nothing else refers to the object, so it is released with the
    frame of the call: at once when the call returns; when the call raises,
    as soon as the error and its traceback are disposed of, at the latest
    when the interpreter exits. *)
Definition run_experiment_to_end
           (exp_name eval_filename pipeline_path run_name : string)
           (query_params : list (string * list (string * Z)))
  : M world unit :=
  fun w =>
    let '(o, w') :=
      run_experiment exp_name eval_filename pipeline_path run_name query_params w in
    (o, release {| name := temp_dir_of w |} w').

End RunExperiment.

(** ** evaluate_reader *)

Section EvaluateReader.

Variable report : Type.

(** [os.path.dirname] *)
Variable os_path_dirname : string -> string.

(** [reader.eval_on_file(data_dir, eval_filename)], by the value of
    [reader.top_k] at the call. *)
Variable eval_on_file : Z -> string -> string -> outcome report.

(** What [evaluate_reader] returns: a dictionary of reports by [top_k], or
    one report. *)
Inductive reader_evaluation :=
| Reports (reports : list (Z * report))
| Report (r : report).

(** The state is the attribute [reader.top_k]. *)
Definition set_top_k (k : Z) : M Z unit := modify (fun _ => k).

Definition run_eval_on_file (data_dir eval_filename : string) : M Z report :=
  fun top_k => (eval_on_file top_k data_dir eval_filename, top_k).

(** [for k in tqdm(top_k_list): reader.top_k = k; reports[k] = ...] *)
Fixpoint eval_for_each (ks : list Z) (data_dir eval_filename : string)
         (reports : list (Z * report)) : M Z (list (Z * report)) :=
  match ks with
  | [] => ret reports
  | k :: rest =>
      set_top_k k ;>
      r <~ run_eval_on_file data_dir eval_filename ;
      eval_for_each rest data_dir eval_filename (DataHandling.dict_set k r reports)
  end.

Definition evaluate_reader (eval_filename : string)
           (top_k : option Z) (top_k_list : option (list Z)) : M Z reader_evaluation :=
  let data_dir := os_path_dirname eval_filename in
  match top_k_list with
  | Some ks =>
      reports <~ eval_for_each ks data_dir eval_filename [] ;
      ret (Reports reports)
  | None =>
      match top_k with
      | Some k =>
          set_top_k k ;>
          r <~ run_eval_on_file data_dir eval_filename ;
          ret (Report r)
      | None =>
          r <~ run_eval_on_file data_dir eval_filename ;
          ret (Report r)
      end
  end.

End EvaluateReader.

End Evaluation.

(* ===================================================================== *)
(** * system/fine_tune_model.py *)
(* ===================================================================== *)

Module FineTune.

Record world := {
  dirs : gset string;
  stdout : list string
}.

(** [os.path.isdir(p)]: it answers [False] for a path that does not exist;
    it raises nothing. *)
Definition os_path_isdir (p : string) : M world bool :=
  fun w => (Returned (bool_decide (p ∈ dirs w)), w).

(** [os.mkdir(p)] *)
Definition os_mkdir (p : string) : M world unit :=
  fun w =>
    if bool_decide (p ∈ dirs w)
    then (Raised (mk_exn FileExistsError p), w)
    else (Returned tt, {| dirs := {[p]} ∪ dirs w; stdout := stdout w |}).

Definition print (line : string) : M world unit :=
  modify (fun w => {| dirs := dirs w; stdout := stdout w ++ [line] |}).

(** The keyword arguments of [reader.train]. *)
Record train_args := {
  data_dir : string;
  train_filename : string;
  use_gpu : bool;
  batch_size : nat;
  n_epochs : nat;
  max_seq_len : nat;
  save_dir : string;
  num_processes : nat
}.

Section FineTuneReader.

Variable reader : Type.

(** [FARMReader(model_name_or_path=...)] *)
Variable FARMReader : string -> outcome reader.

(** [reader.train(...)], from the world it is called in. *)
Variable train : reader -> train_args -> M world unit.

(** The first [try] statement of the function. *)
Definition create_output_dir (save_dir : string) : M world unit :=
  try_except (os_path_isdir save_dir ;> ret tt)
             FileNotFoundError
             (fun _ => os_mkdir save_dir).

(** The rest of the body. *)
Definition load_and_train (model_name_or_path data_dir train_filename save_dir : string)
           (use_gpu : bool) : M world unit :=
  reader <~ lift (FARMReader model_name_or_path) ;
  try_except
    (train reader {| data_dir := data_dir; train_filename := train_filename;
                     use_gpu := use_gpu; batch_size := 12; n_epochs := 1;
                     max_seq_len := 384; save_dir := save_dir;
                     num_processes := 1 |} ;>
     print ("Model fine-tuning done. Model saved in directory: " +:+ save_dir))
    Exception
    (fun e => print (exn_str e)).

Definition fine_tune_reader_model
           (model_name_or_path data_dir train_filename save_dir : string)
           (use_gpu : bool) : M world unit :=
  create_output_dir save_dir ;>
  load_and_train model_name_or_path data_dir train_filename save_dir use_gpu.

End FineTuneReader.

End FineTune.

(* ===================================================================== *)
(** * main.py *)
(* ===================================================================== *)

Module Cli.

(** What [parser.parse_args()] returns. *)
Record Namespace := { launch_flag : bool; ingest_data_flag : bool }.

(** What the process does that can be seen from outside. *)
Inductive event :=
| SubprocessRun (argv : list string)
| PrintHelp.

Section Main.

(** How [subprocess.run] ends for a command line (it raises when the
    program cannot be started). *)
Variable subprocess_result : list string -> outcome unit.

Definition subprocess_run (argv : list string) : M (list event) unit :=
  fun trace => (subprocess_result argv, trace ++ [SubprocessRun argv]).

Definition print_help : M (list event) unit :=
  modify (fun trace => trace ++ [PrintHelp]).

Definition launch : M (list event) unit :=
  subprocess_run ["uvicorn"; "application:app"; "--host"; "0.0.0.0"; "--port"; "8000"].

Definition ingest_data : M (list event) unit :=
  subprocess_run ["python3"; "index_data/ingest_data_to_doc_store.py"].

(** [main()], from the parsed arguments on. *)
Definition main (args : Namespace) : M (list event) unit :=
  if launch_flag args then launch
  else if ingest_data_flag args then ingest_data
  else print_help.

End Main.

End Cli.

(* ===================================================================== *)
(** * Concrete inputs *)
(* ===================================================================== *)

Module Examples.

Import DataHandling.

(** Two DPR records, the first with one positive context, the second with two. *)
Definition dpr_two_records : list dpr_record :=
  [ {| question := "q1";
       positive_ctxs := [ {| ctx_title := "t1"; ctx_text := "a" |} ] |};
    {| question := "q2";
       positive_ctxs := [ {| ctx_title := "t2"; ctx_text := "b" |};
                          {| ctx_title := "t3"; ctx_text := "c" |} ] |} ].

(** An article with one paragraph of [n] questions. *)
Definition article_of (n : nat) : article :=
  {| title := "article";
     paragraphs :=
       [ {| context := "context";
            qas := repeat {| qa_question := "q"; qa_answers := ["a"] |} n |} ] |}.

(** Ten questions in two articles. *)
Definition squad_3_7 : list article := [article_of 3; article_of 7].

(** Fifty questions in three articles: at the ratio 0.1 the threshold is 5. *)
Definition squad_3_7_40 : list article := [article_of 3; article_of 7; article_of 40].

(** One sentence, complete, broken over two lines. *)
Definition two_line_sentence : text :=
  py "Stay home" ++ [LF] ++ py "and rest.".

(** A tokenizer that finds a single sentence (what the library's does on
    [two_line_sentence]: a line break is no sentence boundary for it). *)
Definition one_sentence (t : text) : list text := [t].

(** A world without directories, and a training call that reports whether
    its [save_dir] exists when it starts. *)
Definition empty_world : FineTune.world :=
  {| FineTune.dirs := ∅; FineTune.stdout := [] |}.

Definition probing_train (_ : unit) (args : FineTune.train_args)
  : M FineTune.world unit :=
  fun w =>
    FineTune.print
      (if bool_decide (FineTune.save_dir args ∈ FineTune.dirs w)
       then "save_dir exists" else "save_dir missing") w.

(** A training call that fails. *)
Definition failing_train (_ : unit) (_ : FineTune.train_args)
  : M FineTune.world unit :=
  raise (mk_exn RuntimeError "CUDA out of memory").

(** A pipeline run that finds an answer and reports no documents. *)
Definition answers_only : gmap string Application.pyobj :=
  {[ "answers" := Application.PList
                    [Application.PAnswer {| Application.answer_text := "42" |}] ]}.

Definition answers_only_run (_ : string) (_ : gmap string Application.pyobj)
  : outcome (gmap string Application.pyobj) :=
  Returned answers_only.

Definition a_request : Application.QueryRequest :=
  {| Application.query := "What is the answer?"; Application.params := None |}.

(** Distinct tokens for the random generator. *)
Fixpoint token (n : nat) : string :=
  match n with
  | O => "0"
  | S n => "f" +:+ token n
  end.

Definition report_pdf : Application.UploadFile :=
  {| Application.filename := "report.pdf";
     Application.file_bytes := [Byte.x25; Byte.x50; Byte.x44; Byte.x46] |}.

Definition notes_txt : Application.UploadFile :=
  {| Application.filename := "notes.txt"; Application.file_bytes := [Byte.x68; Byte.x69] |}.

(** An upload whose client file name has a separator in it. *)
Definition nested_txt : Application.UploadFile :=
  {| Application.filename := "a/b.txt"; Application.file_bytes := [Byte.x68; Byte.x69] |}.

(** A server with one unrelated file in the upload directory. *)
Definition quiet_server : Application.server :=
  {| Application.disk := {[ "/srv/file-upload/keep.me" := [] ]};
     Application.directories := {[ "/srv"; "/srv/file-upload" ]};
     Application.uuid_calls := 0;
     Application.ds_recreate_index := false |}.

(** An indexing run that returns one embedded document. *)
Definition indexed_result : gmap string Application.pyobj :=
  {[ "documents" :=
       Application.PList
         [Application.PDocument
            {| Application.doc_content := "text";
               Application.doc_embedding := Application.Ndarray [1; 2]%Z |}] ]}.

Definition indexing_ok (_ : list string) (_ : bool) (_ : gmap string (list Byte.byte))
  : outcome (gmap string Application.pyobj) :=
  Returned indexed_result.

(** An indexing run that fails (the search engine is down). *)
Definition indexing_down (_ : list string) (_ : bool) (_ : gmap string (list Byte.byte))
  : outcome (gmap string Application.pyobj) :=
  Raised (mk_exn OSError "connection refused").

(** An evaluation set of one document, on a disk that holds only [/tmp]. *)
Definition tmp_only : Evaluation.world :=
  {| Evaluation.dirs := {[ "/tmp" ]}; Evaluation.files := ∅;
     Evaluation.mkdtemp_calls := 0; Evaluation.finalizers := ∅ |}.


Definition tmp_name (n : nat) : string := "/tmp/tmp" +:+ token n.

Definition one_doc (_ : string) : outcome (list Evaluation.Document) :=
  Returned [ {| Evaluation.doc_id := "d1"; Evaluation.doc_content := "text" |} ].

Definition no_labels (_ : list Evaluation.Document) : outcome unit := Returned tt.

Definition load_ok (_ _ : string) : outcome unit := Returned tt.

Definition eval_run_ok (_ : Evaluation.eval_run_args unit unit)
           (_ : gmap (string * string) string) : outcome unit :=
  Returned tt.

(** An evaluation run that fails (the tracking service is unreachable). *)
Definition eval_run_down (_ : Evaluation.eval_run_args unit unit)
           (_ : gmap (string * string) string) : outcome unit :=
  Raised (mk_exn OSError "connection refused").

(** A generator result with one answer whose last sentence is cut off. *)
Definition rag_result : list (string * DataHandling.result_value) :=
  [ ("query", DataHandling.VStr (DataHandling.py "What to do?"));
    ("answers",
     DataHandling.VAnswers
       [ {| DataHandling.answer := DataHandling.py "Stay home. Drink a lot of";
            DataHandling.answer_score := 7 |} ]) ].

(** A translator that returns its batch as it is, and a preprocessor that
    cuts a document into its words. *)
Definition same_translator (_ : bool) (_ : nat) : outcome unit := Returned tt.

Definition translate_same (_ : unit) (docs : list DataHandling.text)
  : outcome (list DataHandling.text) :=
  Returned docs.

Definition word_preprocessor (_ : nat) : outcome unit := Returned tt.

Definition words (_ : unit) (doc : DataHandling.text)
  : outcome (list DataHandling.text) :=
  Returned (DataHandling.split_on 32 doc []).

(** Documents of two and of three words. *)
Definition two_words : DataHandling.text := DataHandling.py "stay home".
Definition three_words : DataHandling.text := DataHandling.py "wash your hands".
Definition three_more : DataHandling.text := DataHandling.py "keep your distance".

(** Two evaluation documents, and a store that holds them in its default
    index. *)
Definition two_docs : list Evaluation.Document :=
  [ {| Evaluation.doc_id := "d1"; Evaluation.doc_content := "first" |};
    {| Evaluation.doc_id := "d2"; Evaluation.doc_content := "second" |} ].

Definition store_of_two : Evaluation.InMemoryDocumentStore :=
  {| Evaluation.index := "document"; Evaluation.label_index := "label";
     Evaluation.indexes := {[ "document" := two_docs ]} |}.

(** A reader evaluation that reports the [top_k] it ran with. *)
Definition report_top_k (top_k : Z) (_ _ : string) : outcome Z := Returned top_k.

Definition dirname_data (_ : string) : string := "data".

(** A training call that is interrupted, and one that succeeds. *)
Definition interrupted_train (_ : unit) (_ : FineTune.train_args)
  : M FineTune.world unit :=
  raise (mk_exn KeyboardInterrupt "").

Definition quiet_train (_ : unit) (_ : FineTune.train_args)
  : M FineTune.world unit :=
  ret tt.

End Examples.

(* ===================================================================== *)
(** * Sequencing *)
(* ===================================================================== *)

Lemma bind_returned {St A B : Type} (m : M St A) (k : A -> M St B)
      (s s1 : St) (a : A) :
  m s = (Returned a, s1) -> bind m k s = k a s1.
Proof. intros Hm. unfold bind. by rewrite Hm. Qed.

Lemma bind_raised {St A B : Type} (m : M St A) (k : A -> M St B)
      (s s1 : St) (e : exn) :
  m s = (Raised e, s1) -> bind m k s = (Raised e, s1).
Proof. intros Hm. unfold bind. by rewrite Hm. Qed.

Lemma bind_lift {St A B : Type} (o : outcome A) (k : A -> M St B) (s : St) :
  bind (lift o) k s
  = match o with Returned a => k a s | Raised e => (Raised e, s) end.
Proof. unfold bind, lift. by destruct o. Qed.


(* ===================================================================== *)
(** * Properties of utils/data_handling_utils.py *)
(* ===================================================================== *)

Section DprPairs.

Import DataHandling.

Lemma last_cons_default {A} (x d : A) (l : list A) :
  List.last (x :: l) d = List.last l x.
Proof.
  revert x d. induction l as [|y l IH]; intros x d; [reflexivity|].
  change (List.last (x :: y :: l) d) with (List.last (y :: l) d).
  rewrite IH. symmetry. apply IH.
Qed.

(** The inner loop leaves [document] at the text of the last context. *)
Lemma dpr_inner_last (c : positive_ctx) (cs : list positive_ctx) (document : option string) :
  dpr_inner (c :: cs) document = Some (ctx_text (List.last cs c)).
Proof.
  unfold dpr_inner. simpl. clear document.
  revert c. induction cs as [|c' cs IH]; intros c; [reflexivity|].
  cbn [fold_left]. rewrite IH, last_cons_default. reflexivity.
Qed.

(** Whatever the input, the list returned holds one pair: the only
    [append] runs once, after the loop over the records. *)
Lemma dpr_returns_one_pair (data : list dpr_record) (pairs : list query_doc_pair) :
  get_query_doc_pairs_from_dpr_file data = Returned pairs -> length pairs = 1.
Proof.
  unfold get_query_doc_pairs_from_dpr_file.
  destruct (l_question _); [|discriminate].
  destruct (l_document _); [|discriminate].
  intros [= <-]. reflexivity.
Qed.

(** C1. On a two-record DPR input whose records each have at least one
    positive context, [get_query_doc_pairs_from_dpr_file] returns a single
    pair, the second record's question with the text of the second record's
    last positive context; the first record contributes no pair. *)
Theorem dpr_two_records_give_single_pair
        (q1 q2 : string) (c1 c2 : positive_ctx) (cs1 cs2 : list positive_ctx) :
  get_query_doc_pairs_from_dpr_file
    [ {| question := q1; positive_ctxs := c1 :: cs1 |};
      {| question := q2; positive_ctxs := c2 :: cs2 |} ]
  = Returned [ {| pair_question := q2;
                  pair_document := ctx_text (List.last cs2 c2) |} ].
Proof.
  unfold get_query_doc_pairs_from_dpr_file, dpr_outer.
  cbn [fold_left l_question l_document question positive_ctxs].
  rewrite !dpr_inner_last. reflexivity.
Qed.

Example dpr_two_records_run :
  get_query_doc_pairs_from_dpr_file Examples.dpr_two_records
  = Returned [ {| pair_question := "q2"; pair_document := "c" |} ].
Proof. reflexivity. Qed.

End DprPairs.

Section JoinPunctuation.

Import DataHandling.

(** The documented example: punctuation tokens join their predecessor. *)
Example join_punctuation_hello :
  drain 5 (join_punctuation ["Hello"; ","; "world"; "!"] default_characters)
  = (["Hello,"; "world!"], Some (Stopped (Some ""))).
Proof. reflexivity. Qed.

Lemma drain_S (fuel : nat) (g : generator) :
  drain (S fuel) g =
  match gen_next g with
  | (Yielded t, g') => let '(ts, fin) := drain fuel g' in (t :: ts, fin)
  | (a, _) => ([], Some a)
  end.
Proof. reflexivity. Qed.

(** Running the loop yields a token, and leaves fewer tokens to read. *)
Lemma run_loop_yields (characters current : string) (seq : list string) :
  exists t f,
    run_loop characters current seq = (Yielded t, f) /\
    (f = AtLastYield [] \/
     exists nxt rest, f = AtLoopYield nxt rest /\ length rest < length seq).
Proof.
  revert current. induction seq as [|nxt rest IH]; intros current; simpl.
  - eauto.
  - destruct (in_characters characters nxt).
    + destruct (IH (current +:+ nxt)) as (t & f & -> & [->|(n & r & -> & Hlen)]).
      * eauto.
      * exists t, (AtLoopYield n r). split; [reflexivity|]. right.
        exists n, r. split; [reflexivity|lia].
    + exists current, (AtLoopYield nxt rest). split; [reflexivity|]. right.
      exists nxt, rest. split; [reflexivity|lia].
Qed.

(** From a suspended loop, draining ends with StopIteration. *)
Lemma drain_from_loop (characters : string) (fuel : nat) :
  forall nxt rest,
    length rest + 2 <= fuel ->
    exists t ts,
      drain fuel {| gen_characters := characters; gen_frame := AtLoopYield nxt rest |}
      = (t :: ts, Some (Stopped (Some ""))).
Proof.
  induction fuel as [|fuel IH]; intros nxt rest Hfuel; [lia|].
  simpl. unfold gen_next. simpl.
  destruct (run_loop_yields characters nxt rest)
    as (t & f & -> & [->|(n & r & -> & Hlen)]).
  - destruct fuel as [|fuel]; [lia|]. simpl. eauto.
  - destruct (IH n r) as (t' & ts & ->); [lia|]. eauto.
Qed.

(** C10. On the empty sequence the first advance of the generator raises
    (a RuntimeError, not the end of the iteration), so no empty sequence
    comes out; on every non-empty sequence the generator yields at least one
    token and then ends normally. *)
Theorem join_punctuation_needs_a_token :
  (forall characters,
      gen_next (join_punctuation [] characters)
      = (Failed (mk_exn RuntimeError "generator raised StopIteration"),
         {| gen_characters := characters; gen_frame := Finished |}) /\
      drain 1 (join_punctuation [] characters)
      = ([], Some (Failed (mk_exn RuntimeError "generator raised StopIteration")))) /\
  (forall characters x xs,
      (exists t g, gen_next (join_punctuation (x :: xs) characters) = (Yielded t, g)) /\
      (exists t ts, drain (length (x :: xs) + 1) (join_punctuation (x :: xs) characters)
                    = (t :: ts, Some (Stopped (Some ""))))).
Proof.
  split.
  - intros characters. split; reflexivity.
  - intros characters x xs. split.
    + unfold gen_next, join_punctuation. simpl.
      destruct (run_loop_yields characters x xs) as (t & f & -> & _). eauto.
    + simpl length. replace (S (length xs) + 1) with (S (S (length xs))) by lia.
      rewrite drain_S. unfold gen_next, join_punctuation.
      cbn [gen_frame gen_characters].
      destruct (run_loop_yields characters x xs)
        as (t & f & -> & [->|(n & r & -> & Hlen)]).
      * destruct xs; simpl; eauto.
      * destruct (drain_from_loop characters (S (length xs)) n r) as (t' & ts & ->);
          [lia|]. eauto.
Qed.

End JoinPunctuation.

(* ===================================================================== *)
(** * Properties of remove_incomplete_sentences *)
(* ===================================================================== *)

Section RemoveIncompleteSentences.

Import DataHandling.

(** The documented examples, the tokenizer splitting them as the library
    does. *)
Example remove_incomplete_sentences_cut_off :
  remove_incomplete_sentences
    (fun _ => [py "This is done."; py "This is cut off"])
    (py "This is done. This is cut off")
  = py "This is done.".
Proof. reflexivity. Qed.

Example remove_incomplete_sentences_none :
  remove_incomplete_sentences (fun t => [t]) (py "No punctuation here") = [].
Proof. reflexivity. Qed.

(** One step of the search for [.*]. *)
Lemma matches_star (p : N -> bool) (s : text) (k : text -> bool) :
  matches (StarClass p) s k
  = k s || match s with
           | c :: rest => p c && matches (StarClass p) rest k
           | [] => false
           end.
Proof. destruct s; reflexivity. Qed.

(** The pattern, read off character by character. *)
Lemma sentence_end_regex_unfold (s : text) :
  re_match sentence_end_regex s
  = match s with
    | [] => false
    | c :: rest =>
        sentence_end_class c && at_dollar rest
        || dot c && re_match sentence_end_regex rest
    end.
Proof.
  unfold re_match, sentence_end_regex. cbn [matches].
  change ((fix star (s0 : text) : bool :=
             _ || match s0 with
                  | c :: rest => dot c && star rest
                  | [] => false
                  end) s)
    with (matches (StarClass dot) s
            (fun rest => matches (Cat (Class sentence_end_class) Dollar) rest
                                 (fun _ => true))).
  rewrite matches_star. destruct s as [|c rest]; [reflexivity|].
  cbn [matches]. rewrite andb_true_r. reflexivity.
Qed.

Lemma ends_in_terminal_cons (c x : N) (s : text) :
  ends_in_terminal (c :: x :: s) = ends_in_terminal (x :: s).
Proof.
  unfold ends_in_terminal.
  change (rev (c :: x :: s)) with (rev (x :: s) ++ [c]).
  destruct (rev (x :: s)) as [|y l] eqn:Hrev; [|reflexivity].
  apply (f_equal (@length N)) in Hrev. rewrite length_rev in Hrev. discriminate.
Qed.

(** On a text without a line break the pattern tests the last character. *)
Lemma sentence_end_regex_one_line (s : text) :
  LF ∉ s -> re_match sentence_end_regex s = ends_in_terminal s.
Proof.
  induction s as [|c rest IH]; intros Hlf; [reflexivity|].
  rewrite sentence_end_regex_unfold.
  apply not_elem_of_cons in Hlf as [Hc Hrest].
  assert (Hdot : dot c = true).
  { unfold dot. apply negb_true_iff, N.eqb_neq. congruence. }
  rewrite Hdot, (IH Hrest). cbn [andb].
  destruct rest as [|x rest].
  - cbn [at_dollar]. unfold ends_in_terminal. cbn [rev app].
    rewrite andb_true_r, orb_false_r. reflexivity.
  - rewrite ends_in_terminal_cons.
    assert (Hd : at_dollar (x :: rest) = false).
    { destruct rest; [|reflexivity]. cbn [at_dollar]. apply N.eqb_neq.
      intros ->. apply Hrest. by left. }
    rewrite Hd, andb_false_r. reflexivity.
Qed.

(** A text with a line break that is not its last character never matches:
    [.] stops at the line break. *)
Lemma sentence_end_regex_line_break (s : text) :
  LF ∈ s -> List.last s 0%N <> LF -> re_match sentence_end_regex s = false.
Proof.
  induction s as [|c rest IH]; intros Hlf Hlast.
  - by apply elem_of_nil in Hlf.
  - rewrite sentence_end_regex_unfold.
    destruct (N.eq_dec c LF) as [->|Hc]; [reflexivity|].
    apply elem_of_cons in Hlf as [Heq|Hlf]; [congruence|].
    destruct rest as [|x rest]; [by apply elem_of_nil in Hlf|].
    assert (Hlast' : List.last (x :: rest) 0%N <> LF) by exact Hlast.
    rewrite (IH Hlf Hlast'), andb_false_r, orb_false_r.
    assert (Hd : at_dollar (x :: rest) = false).
    { destruct rest; [|reflexivity]. cbn [at_dollar]. apply N.eqb_neq.
      exact Hlast. }
    rewrite Hd, andb_false_r. reflexivity.
Qed.

(** A trimmed text does not end in white space. *)
Lemma lstrip_head (s : text) :
  match lstrip s with
  | [] => True
  | c :: _ => isspace c = false
  end.
Proof.
  induction s as [|c s IH]; [exact I|].
  cbn [lstrip]. destruct (isspace c) eqn:Hc; [exact IH|exact Hc].
Qed.

Lemma strip_last (s : text) : List.last (strip s) 0%N <> LF.
Proof.
  unfold strip, rstrip.
  pose proof (lstrip_head (rev (lstrip s))) as Hhead.
  destruct (lstrip (rev (lstrip s))) as [|c l]; [discriminate|].
  cbn [rev]. rewrite last_last. intros ->. discriminate.
Qed.

(** X1. Which sentences the filter of [remove_incomplete_sentences] keeps:
    those whose trimmed text ends in [.], [;] or [!] and holds no line
    break. *)
Lemma kept_sentences (sentence : text) :
  re_match sentence_end_regex (strip sentence)
  = ends_in_terminal (strip sentence) && bool_decide (LF ∉ strip sentence).
Proof.
  case_bool_decide as Hlf.
  - rewrite andb_true_r. by apply sentence_end_regex_one_line.
  - rewrite andb_false_r. apply sentence_end_regex_line_break.
    + destruct (decide (LF ∈ strip sentence)); [done|contradiction].
    + apply strip_last.
Qed.

(** X2. When no sentence of the text holds a line break,
    [remove_incomplete_sentences] returns the sentences whose trimmed text
    ends in [.], [;] or [!], untrimmed, joined by single spaces. *)
Lemma remove_incomplete_sentences_one_line
      (sent_tokenize : text -> list text) (t : text) :
  Forall (fun sentence => LF ∉ strip sentence) (sent_tokenize t) ->
  remove_incomplete_sentences sent_tokenize t
  = described_remove_incomplete_sentences sent_tokenize t.
Proof.
  unfold remove_incomplete_sentences, described_remove_incomplete_sentences.
  intros Hall. f_equal. induction Hall as [|x l Hx _ IH]; [reflexivity|].
  cbn [List.filter]. rewrite IH, (sentence_end_regex_one_line _ Hx). reflexivity.
Qed.

End RemoveIncompleteSentences.

(** C5. A complete sentence that runs over two lines is dropped: its trimmed
    text ends in [.], the description keeps it, and the function returns the
    empty string. *)
Theorem remove_incomplete_sentences_drops_two_line_sentence
        (sent_tokenize : DataHandling.text -> list DataHandling.text) :
  sent_tokenize Examples.two_line_sentence = [Examples.two_line_sentence] ->
  DataHandling.ends_in_terminal (DataHandling.strip Examples.two_line_sentence) = true /\
  DataHandling.remove_incomplete_sentences sent_tokenize Examples.two_line_sentence = [] /\
  DataHandling.described_remove_incomplete_sentences
    sent_tokenize Examples.two_line_sentence
  = Examples.two_line_sentence.
Proof.
  intros Htok.
  unfold DataHandling.remove_incomplete_sentences,
         DataHandling.described_remove_incomplete_sentences.
  rewrite Htok. repeat split.
Qed.

Lemma remove_incomplete_sentences_drops_two_line_sentence_witness :
  DataHandling.ends_in_terminal (DataHandling.strip Examples.two_line_sentence) = true /\
  DataHandling.remove_incomplete_sentences Examples.one_sentence
                                           Examples.two_line_sentence = [] /\
  DataHandling.described_remove_incomplete_sentences
    Examples.one_sentence Examples.two_line_sentence
  = Examples.two_line_sentence.
Proof.
  apply (remove_incomplete_sentences_drops_two_line_sentence Examples.one_sentence).
  reflexivity.
Defined.

(* ===================================================================== *)
(** * Properties of split_squad_dataset *)
(* ===================================================================== *)

Section SplitSquad.

Import DataHandling.

Lemma count_paragraphs_shift (ps : list paragraph) (counter : Z) :
  count_paragraphs ps counter = (counter + count_paragraphs ps 0)%Z.
Proof.
  unfold count_paragraphs. revert counter.
  induction ps as [|p ps IH]; intros counter; cbn [fold_left]; [lia|].
  rewrite IH, (IH (0 + _)%Z). lia.
Qed.

Lemma count_paragraphs_ge (ps : list paragraph) (counter : Z) :
  (counter <= count_paragraphs ps counter)%Z.
Proof.
  unfold count_paragraphs. revert counter.
  induction ps as [|p ps IH]; intros counter; cbn [fold_left]; [lia|].
  etransitivity; [|apply IH]. lia.
Qed.

(** The question count of a list of articles, from a running counter. *)
Lemma count_articles_fold (data : list article) (counter : Z) :
  fold_left (fun c a => count_paragraphs (paragraphs a) c) data counter
  = List.last (cumulative_counts data counter) counter.
Proof.
  revert counter. induction data as [|a data IH]; intros counter; [reflexivity|].
  cbn [fold_left cumulative_counts]. rewrite IH, last_cons_default. reflexivity.
Qed.

(** The counter the loop ends with: the first cumulative count that reaches
    the threshold, or the total when none does. *)
Lemma split_loop_counter (threshold : Z) (data : list article) :
  forall counter test_set,
    fst (split_loop threshold data counter test_set)
    = match List.find (fun c => (c >=? threshold)%Z) (cumulative_counts data counter) with
      | Some c => c
      | None => List.last (cumulative_counts data counter) counter
      end.
Proof.
  induction data as [|a data IH]; intros counter test_set; [reflexivity|].
  cbn [split_loop cumulative_counts List.find].
  destruct (_ >=? threshold)%Z; [reflexivity|].
  rewrite IH, last_cons_default. reflexivity.
Qed.

(** The articles the loop moves: a prefix of the data, all of whose
    cumulative counts are below the threshold. *)
Lemma split_loop_moved (threshold : Z) (data : list article) :
  forall counter test_set,
  exists moved rest,
    data = moved ++ rest /\
    snd (split_loop threshold data counter test_set) = test_set ++ moved /\
    Forall (fun c => (c < threshold)%Z) (cumulative_counts moved counter) /\
    match rest with
    | [] => True
    | a :: _ =>
        (count_paragraphs (paragraphs a)
                          (List.last (cumulative_counts moved counter) counter)
         >= threshold)%Z
    end.
Proof.
  induction data as [|a data IH]; intros counter test_set.
  - exists [], []. split; [reflexivity|].
    split; [cbn [split_loop snd]; by rewrite app_nil_r|].
    split; [constructor|exact I].
  - cbn [split_loop].
    destruct (count_paragraphs (paragraphs a) counter >=? threshold)%Z eqn:Hcmp.
    + exists [], (a :: data). split; [reflexivity|].
      split; [cbn [snd]; by rewrite app_nil_r|].
      split; [constructor|]. cbn [cumulative_counts List.last]. lia.
    + destruct (IH (count_paragraphs (paragraphs a) counter) (test_set ++ [a]))
        as (moved & rest & -> & Hsnd & Hall & Hrest).
      exists (a :: moved), rest. split; [reflexivity|].
      split; [by rewrite Hsnd, <- app_assoc|].
      cbn [cumulative_counts]. rewrite last_cons_default.
      split; [|exact Hrest].
      constructor; [lia|exact Hall].
Qed.

Variable shuffle : list article -> list article.

(** X5. The two files of [split_squad_dataset] partition the shuffled
    article list: the dev file is a prefix of it, the train file the rest. *)
Lemma split_squad_dataset_partition (data : list article) (rnum rden : Z) :
  dev_file (split_squad_dataset shuffle data rnum rden)
  ++ train_file (split_squad_dataset shuffle data rnum rden)
  = shuffle data.
Proof.
  unfold split_squad_dataset.
  set (threshold := split_threshold _ _ _).
  destruct (split_loop_moved threshold (shuffle data) 0 [])
    as (moved & rest & Hdata & Hsnd & _).
  destruct (split_loop threshold (shuffle data) 0 []) as [counter test_set].
  cbn [snd app] in Hsnd. subst test_set. cbn [dev_file train_file].
  rewrite Hdata at 1. rewrite drop_app_length. symmetry. exact Hdata.
Qed.

(** X6. Whatever positive threshold the loop of [split_squad_dataset] is
    given, the articles it moves to the dev set hold fewer questions than
    that threshold: the article with which the counter reaches it is not
    moved.  At the default ratio 0.1 the threshold is [round(N * 0.1)], and
    the dev file holds fewer questions than that. *)
Lemma split_squad_dataset_dev_below (data : list article) (threshold : Z) :
  (0 < threshold)%Z ->
  (SquadData_count (snd (split_loop threshold (shuffle data) 0 [])) < threshold)%Z /\
  (split_threshold (SquadData_count data) 1 10 = threshold ->
   (SquadData_count (dev_file (split_squad_dataset shuffle data 1 10)) < threshold)%Z).
Proof.
  intros Hpos.
  assert (Hloop : (SquadData_count (snd (split_loop threshold (shuffle data) 0 []))
                   < threshold)%Z).
  { destruct (split_loop_moved threshold (shuffle data) 0 [])
      as (moved & rest & Hdata & Hsnd & Hall & _).
    rewrite Hsnd. cbn [app].
    unfold SquadData_count. rewrite count_articles_fold.
    destruct moved as [|a moved]; [exact Hpos|].
    rewrite Forall_forall in Hall. apply Hall.
    apply list_elem_of_In. set (l := cumulative_counts (a :: moved) 0).
    assert (Hne : l <> []) by discriminate.
    destruct (exists_last Hne) as (l' & x & ->).
    rewrite last_last. apply in_or_app. right. by left. }
  split; [exact Hloop|].
  intros Hthr. unfold split_squad_dataset. rewrite Hthr.
  destruct (split_loop threshold (shuffle data) 0 []) as [counter test_set].
  exact Hloop.
Qed.

(** X7. The counter the loop of [split_squad_dataset] ends with is the
    first cumulative count of the shuffled articles that reaches the
    threshold the loop is given; at the default ratio 0.1, where the
    threshold is [round(N * 0.1)], that is the count printed as "dev set
    instances". *)
Lemma split_squad_dataset_printed (data : list article) (threshold c : Z) :
  List.find (fun c => (c >=? threshold)%Z) (cumulative_counts (shuffle data) 0)
  = Some c ->
  fst (split_loop threshold (shuffle data) 0 []) = c /\
  (split_threshold (SquadData_count data) 1 10 = threshold ->
   printed_dev_instances (split_squad_dataset shuffle data 1 10) = c).
Proof.
  intros Hfind.
  assert (Hloop : fst (split_loop threshold (shuffle data) 0 []) = c).
  { rewrite split_loop_counter, Hfind. reflexivity. }
  split; [exact Hloop|].
  intros Hthr. unfold split_squad_dataset. rewrite Hthr.
  destruct (split_loop threshold (shuffle data) 0 []) as [counter test_set].
  exact Hloop.
Qed.

End SplitSquad.

(** C4. On ten questions in two articles (3 and 7) and ratio 0.1 the
    threshold is 1 and the smallest cumulative article count that reaches it
    is 3 (7 in the other order); the dev file written is empty in both
    orders, while the message printed reports 3 (7) dev instances.  The train
    file holds the remaining articles, here all of them. *)
Theorem split_squad_dataset_dev_misses_crossing_article :
  DataHandling.SquadData_count Examples.squad_3_7 = 10%Z /\
  DataHandling.split_threshold 10 1 10 = 1%Z /\
  DataHandling.cumulative_counts Examples.squad_3_7 0 = [3; 10]%Z /\
  DataHandling.cumulative_counts (rev Examples.squad_3_7) 0 = [7; 10]%Z /\
  DataHandling.split_squad_dataset (fun d => d) Examples.squad_3_7 1 10
  = {| DataHandling.train_file := Examples.squad_3_7;
       DataHandling.dev_file := [];
       DataHandling.printed_train_instances := 7;
       DataHandling.printed_dev_instances := 3 |} /\
  DataHandling.split_squad_dataset (@rev _) Examples.squad_3_7 1 10
  = {| DataHandling.train_file := rev Examples.squad_3_7;
       DataHandling.dev_file := [];
       DataHandling.printed_train_instances := 3;
       DataHandling.printed_dev_instances := 7 |}.
Proof. repeat split. Qed.

(* ===================================================================== *)
(** * Properties of application.py: the query handlers *)
(* ===================================================================== *)

Section QueryHandlers.

Import Application.

Lemma backfill_has_documents (result : gmap string pyobj) :
  is_Some (backfill result !! "documents").
Proof.
  unfold backfill.
  destruct (result !! "documents") as [v|] eqn:Hd.
  - destruct (result !! "answers") eqn:Ha.
    + rewrite Hd. eauto.
    + rewrite lookup_insert_ne by discriminate. rewrite Hd. eauto.
  - destruct (<["documents" := PList []]> result !! "answers") eqn:Ha.
    + rewrite lookup_insert_eq. eauto.
    + rewrite lookup_insert_ne by discriminate. rewrite lookup_insert_eq. eauto.
Qed.

Lemma backfill_has_answers (result : gmap string pyobj) :
  is_Some (backfill result !! "answers").
Proof.
  unfold backfill.
  match goal with
  | |- context [match ?m !! "answers" with _ => _ end] =>
      destruct (m !! "answers") eqn:Ha
  end.
  - rewrite Ha. eauto.
  - rewrite lookup_insert_eq. eauto.
Qed.

(** A key the pipeline bound keeps its value; the two keys, when the
    pipeline left them out, are bound to the empty list; no other key
    appears. *)
Lemma backfill_lookup (result : gmap string pyobj) (k : string) :
  backfill result !! k =
  match result !! k with
  | Some v => Some v
  | None => if bool_decide (k = "answers" \/ k = "documents")
            then Some (PList []) else None
  end.
Proof.
  unfold backfill.
  destruct (result !! "documents") as [vd|] eqn:Hd.
  - destruct (result !! "answers") as [va|] eqn:Ha.
    + destruct (result !! k) eqn:Hk; [reflexivity|].
      case_bool_decide as Hor; [|reflexivity].
      destruct Hor as [->| ->]; congruence.
    + destruct (decide (k = "answers")) as [->|Hne].
      * rewrite lookup_insert_eq, Ha. case_bool_decide as Hor; [reflexivity|].
        exfalso. apply Hor. by left.
      * rewrite lookup_insert_ne by congruence.
        destruct (result !! k) eqn:Hk; [reflexivity|].
        case_bool_decide as Hor; [|reflexivity].
        destruct Hor as [->| ->]; congruence.
  - rewrite lookup_insert_ne by discriminate.
    destruct (result !! "answers") as [va|] eqn:Ha.
    + destruct (decide (k = "documents")) as [->|Hne].
      * rewrite lookup_insert_eq, Hd. case_bool_decide as Hor; [reflexivity|].
        exfalso. apply Hor. by right.
      * rewrite lookup_insert_ne by congruence.
        destruct (result !! k) eqn:Hk; [reflexivity|].
        case_bool_decide as Hor; [|reflexivity].
        destruct Hor as [->| ->]; congruence.
    + destruct (decide (k = "answers")) as [->|Hna].
      * rewrite lookup_insert_eq, Ha. case_bool_decide as Hor; [reflexivity|].
        exfalso. apply Hor. by left.
      * rewrite lookup_insert_ne by congruence.
        destruct (decide (k = "documents")) as [->|Hnd].
        -- rewrite lookup_insert_eq, Hd. case_bool_decide as Hor; [reflexivity|].
           exfalso. apply Hor. by right.
        -- rewrite lookup_insert_ne by congruence.
           destruct (result !! k) eqn:Hk; [reflexivity|].
           case_bool_decide as Hor; [|reflexivity].
           destruct Hor as [->| ->]; congruence.
Qed.

Lemma backfill_binds_list (result : gmap string pyobj) (k : string) :
  k = "answers" \/ k = "documents" ->
  lists_where_bound result ->
  binds_list (backfill result) k.
Proof.
  intros Hk Hlists. unfold binds_list. rewrite backfill_lookup.
  destruct (result !! k) as [v|] eqn:Hv.
  - specialize (Hlists k v Hk Hv). destruct v; try discriminate. eauto.
  - rewrite bool_decide_eq_true_2 by exact Hk. eauto.
Qed.

Lemma backfill_empty :
  backfill ∅ = <["answers" := PList []]> (<["documents" := PList []]> ∅).
Proof. reflexivity. Qed.

End QueryHandlers.

Section QueryHandlerResponses.

Import Application.

Lemma backfill_well_formed (res : gmap string pyobj) :
  well_formed_response res (backfill res).
Proof.
  unfold well_formed_response.
  split; [apply backfill_has_answers|].
  split; [apply backfill_has_documents|].
  split; [intros Hnone; rewrite backfill_lookup, Hnone; reflexivity|].
  split; [intros Hnone; rewrite backfill_lookup, Hnone; reflexivity|].
  intros Hlists. split.
  - apply backfill_binds_list; [by left|done].
  - apply backfill_binds_list; [by right|done].
Qed.

(** Both handlers return the backfilled pipeline result and log it. *)
Lemma ask_retriever_reader_pipeline_returns
      (run : string -> gmap string pyobj -> outcome (gmap string pyobj))
      (request : QueryRequest) (res : gmap string pyobj) (log : list log_record) :
  run (query request) (params_or_empty request) = Returned res ->
  ask_retriever_reader_pipeline run request log
  = (Returned (backfill res),
     log ++ [{| log_request := request; log_response := backfill res |}]).
Proof.
  intros Hrun. unfold ask_retriever_reader_pipeline, bind, lift. rewrite Hrun.
  reflexivity.
Qed.

Lemma ask_rag_pipeline_returns
      (run : string -> gmap string pyobj -> outcome (gmap string pyobj))
      (request : QueryRequest) (res : gmap string pyobj) (log : list log_record) :
  run (query request) (params_or_empty request) = Returned res ->
  ask_rag_pipeline run request log
  = (Returned (backfill res),
     log ++ [{| log_request := request; log_response := backfill res |}]).
Proof.
  intros Hrun. unfold ask_rag_pipeline, bind, lift. rewrite Hrun. reflexivity.
Qed.

End QueryHandlerResponses.

(** C2. For every request, whatever mapping the pipeline returns, the
    response of the extractive-query handler and of the RAG-query handler
    binds both ["answers"] and ["documents"]; a key the pipeline left out is
    bound to the empty list, and both values are lists, the values the
    pipeline supplies for the two keys being lists. *)
Theorem query_responses_bind_answers_and_documents
        (extractive_qa_run rag_run :
           string -> gmap string Application.pyobj -> outcome (gmap string Application.pyobj))
        (request : Application.QueryRequest)
        (res_x res_r : gmap string Application.pyobj)
        (log : list Application.log_record) :
  extractive_qa_run (Application.query request) (Application.params_or_empty request)
  = Returned res_x ->
  rag_run (Application.query request) (Application.params_or_empty request)
  = Returned res_r ->
  (exists resp log',
      Application.ask_retriever_reader_pipeline extractive_qa_run request log
      = (Returned resp, log') /\
      Application.well_formed_response res_x resp) /\
  (exists resp log',
      Application.ask_rag_pipeline rag_run request log = (Returned resp, log') /\
      Application.well_formed_response res_r resp).
Proof.
  intros Hx Hr. split.
  - eexists _, _. split; [apply ask_retriever_reader_pipeline_returns, Hx|].
    apply backfill_well_formed.
  - eexists _, _. split; [apply ask_rag_pipeline_returns, Hr|].
    apply backfill_well_formed.
Qed.

Lemma query_responses_bind_answers_and_documents_witness :
  (exists resp log',
      Application.ask_retriever_reader_pipeline
        Examples.answers_only_run Examples.a_request [] = (Returned resp, log') /\
      Application.well_formed_response Examples.answers_only resp) /\
  (exists resp log',
      Application.ask_rag_pipeline
        Examples.answers_only_run Examples.a_request [] = (Returned resp, log') /\
      Application.well_formed_response Examples.answers_only resp).
Proof.
  apply (query_responses_bind_answers_and_documents
           Examples.answers_only_run Examples.answers_only_run Examples.a_request
           Examples.answers_only Examples.answers_only []).
  - reflexivity.
  - reflexivity.
Defined.

(** The pipeline result of the witness binds a list, so its response binds
    two. *)
Example answers_only_lists : Application.lists_where_bound Examples.answers_only.
Proof.
  intros k v [->| ->] H; vm_compute in H; inversion H; reflexivity.
Qed.

Example answers_only_backfilled :
  Application.backfill Examples.answers_only !! "documents"
  = Some (Application.PList []).
Proof. reflexivity. Qed.

(* ===================================================================== *)
(** * Properties of application.py: file upload *)
(* ===================================================================== *)

Section UploadFiles.

Import Application.

Variable FILE_UPLOAD_PATH : string.
Variable uuid4_hex : nat -> string.
Variable indexing_run :
  list string -> bool -> gmap string (list Byte.byte) -> outcome (gmap string pyobj).

(** One round of the first loop, when the file can be written. *)
Lemma save_uploads_cons (f : UploadFile) (files : list UploadFile)
      (acc : list string) (s : server) :
  can_write s (upload_path FILE_UPLOAD_PATH (uuid4_hex (uuid_calls s)) f) = true ->
  save_uploads FILE_UPLOAD_PATH uuid4_hex (f :: files) acc s
  = save_uploads FILE_UPLOAD_PATH uuid4_hex files
      (acc ++ [upload_path FILE_UPLOAD_PATH (uuid4_hex (uuid_calls s)) f])
      {| disk := <[upload_path FILE_UPLOAD_PATH (uuid4_hex (uuid_calls s)) f
                   := file_bytes f]> (disk s);
         directories := directories s;
         uuid_calls := S (uuid_calls s);
         ds_recreate_index := ds_recreate_index s |}.
Proof.
  unfold can_write. intros [Hdir Hfile]%andb_true_iff.
  cbn [save_uploads]. unfold bind, fresh_uuid, write_file.
  cbn [directories disk uuid_calls ds_recreate_index].
  rewrite Hdir. cbn [negb]. apply negb_true_iff in Hfile. rewrite Hfile.
  reflexivity.
Qed.

(** One round of the first loop, when the file cannot be written: the
    loop ends with the error of [open], and only a token was drawn. *)
Lemma save_uploads_cons_raise (f : UploadFile) (files : list UploadFile)
      (acc : list string) (s : server) :
  can_write s (upload_path FILE_UPLOAD_PATH (uuid4_hex (uuid_calls s)) f) = false ->
  exists e,
    save_uploads FILE_UPLOAD_PATH uuid4_hex (f :: files) acc s
    = (Raised e,
       {| disk := disk s; directories := directories s;
          uuid_calls := S (uuid_calls s);
          ds_recreate_index := ds_recreate_index s |}).
Proof.
  unfold can_write. intros Hcan.
  cbn [save_uploads]. unfold bind, fresh_uuid, write_file.
  cbn [directories disk uuid_calls ds_recreate_index].
  destruct (bool_decide (parent _ ∈ directories s)); cbn [negb andb] in *.
  - apply negb_false_iff in Hcan. rewrite Hcan. eauto.
  - eauto.
Qed.

(** The paths of a request, file by file. *)
Lemma request_paths_cons (f : UploadFile) (files : list UploadFile) (s s0 : server) :
  uuid_calls s0 = S (uuid_calls s) ->
  request_paths FILE_UPLOAD_PATH uuid4_hex (f :: files) s
  = upload_path FILE_UPLOAD_PATH (uuid4_hex (uuid_calls s)) f
    :: request_paths FILE_UPLOAD_PATH uuid4_hex files s0.
Proof.
  intros Hs0. unfold request_paths. cbn [imap]. rewrite Nat.add_0_r, Hs0. f_equal.
  apply imap_ext. intros i x _. cbn.
  replace (S (uuid_calls s + i)) with (uuid_calls s + S i) by lia. reflexivity.
Qed.


(** When the first loop ends without an error, it has written the
    request's paths and nothing else, and it returns them in order. *)
Lemma save_uploads_spec (files : list UploadFile) :
  forall (acc : list string) (s : server) (paths : list string) (s1 : server),
    save_uploads FILE_UPLOAD_PATH uuid4_hex files acc s = (Returned paths, s1) ->
    paths = acc ++ request_paths FILE_UPLOAD_PATH uuid4_hex files s /\
    (forall p, p ∉ request_paths FILE_UPLOAD_PATH uuid4_hex files s ->
               disk s1 !! p = disk s !! p) /\
    (forall p, p ∈ request_paths FILE_UPLOAD_PATH uuid4_hex files s ->
               is_Some (disk s1 !! p)).
Proof.
  induction files as [|f files IH]; intros acc s paths s1 Hrun.
  - cbn in Hrun. unfold ret in Hrun. injection Hrun as <- <-.
    unfold request_paths. cbn [imap]. rewrite app_nil_r.
    repeat split. intros p Hp. by apply elem_of_nil in Hp.
  - destruct (can_write s (upload_path FILE_UPLOAD_PATH (uuid4_hex (uuid_calls s)) f))
      eqn:Hcan.
    2:{ destruct (save_uploads_cons_raise f files acc s Hcan) as [e He].
        rewrite He in Hrun. discriminate. }
    rewrite (save_uploads_cons _ _ _ _ Hcan) in Hrun.
    set (q := upload_path FILE_UPLOAD_PATH (uuid4_hex (uuid_calls s)) f) in *.
    match type of Hrun with
    | save_uploads _ _ files ?acc' ?s' = _ =>
        set (s0 := s') in *;
        destruct (IH acc' s0 paths s1 Hrun) as (Hpaths & Hout & Hin)
    end.
    rewrite (request_paths_cons f files s s0) by reflexivity. fold q.
    split; [by rewrite Hpaths, <- app_assoc|]. split.
    + intros p Hp. apply not_elem_of_cons in Hp as [Hne Hp].
      rewrite (Hout p Hp). subst s0. cbn [disk]. by rewrite lookup_insert_ne.
    + intros p Hp. apply elem_of_cons in Hp as [->|Hp]; [|by apply Hin].
      destruct (decide (q ∈ request_paths FILE_UPLOAD_PATH uuid4_hex files s0))
        as [Hq|Hq]; [by apply Hin|].
      rewrite (Hout _ Hq). subst s0. cbn [disk]. rewrite lookup_insert_eq. eauto.
Qed.


(** Setting the store's attribute when asked to: the step cannot fail and
    leaves the disk alone. *)
Lemma recreate_step (recreate_index : option bool) (s1 : server) :
  exists s2,
    (if truthy recreate_index then modify set_recreate_index else ret tt) s1
    = (Returned tt, s2) /\
    disk s2 = disk s1 /\
    ds_recreate_index s2 = (truthy recreate_index || ds_recreate_index s1).
Proof.
  destruct (truthy recreate_index); eexists; repeat split; reflexivity.
Qed.

(** When the deleting loop ends without an error, every path of the list is
    gone, a path that was absent stays absent, and nothing else changed. *)
Lemma unlink_all_spec (paths : list string) :
  forall s s',
    for_each paths unlink s = (Returned tt, s') ->
    ds_recreate_index s' = ds_recreate_index s /\
    forall p,
      (p ∈ paths -> disk s' !! p = None) /\
      (disk s !! p = None -> disk s' !! p = None) /\
      (p ∉ paths -> disk s' !! p = disk s !! p).
Proof.
  induction paths as [|q paths IH]; intros s s' Hrun.
  - simpl in Hrun. unfold ret in Hrun. injection Hrun as <-.
    split; [done|]. intros p. repeat split; try done.
    intros Hp. by apply elem_of_nil in Hp.
  - cbn [for_each] in Hrun. unfold bind, unlink in Hrun.
    destruct (disk s !! q) as [data|] eqn:Hq; [|discriminate].
    apply IH in Hrun as [Hflag Hrest]. split; [exact Hflag|].
    intros p. destruct (Hrest p) as (Hin & Hnone & Hout).
    unfold set_disk in *. cbn [disk] in *. repeat split.
    + intros Hp. apply elem_of_cons in Hp as [->|Hp]; [|by apply Hin].
      apply Hnone. apply lookup_delete_eq.
    + intros Hp. apply Hnone.
      destruct (decide (q = p)) as [->|Hne]; [apply lookup_delete_eq|].
      by rewrite lookup_delete_ne.
    + intros Hp. apply not_elem_of_cons in Hp as [Hne Hp].
      rewrite (Hout Hp). by rewrite lookup_delete_ne.
Qed.

End UploadFiles.

(** C3 (as the code has it). When a file-upload request with [keep_files]
    unset returns a response, none of the files written for the request is
    left in the upload directory, and no other file was touched. *)
Theorem upload_files_removes_files_on_return
        (FILE_UPLOAD_PATH : string) (uuid4_hex : nat -> string)
        (indexing_run : list string -> bool -> gmap string (list Byte.byte) ->
                        outcome (gmap string Application.pyobj))
        (files : list Application.UploadFile)
        (keep_files recreate_index : option bool)
        (s s' : Application.server) (response : gmap string Application.pyobj) :
  Application.truthy keep_files = false ->
  Application.upload_files FILE_UPLOAD_PATH uuid4_hex indexing_run
                           files keep_files recreate_index s
  = (Returned response, s') ->
  (forall p, p ∈ Application.request_paths FILE_UPLOAD_PATH uuid4_hex files s ->
             Application.disk s' !! p = None) /\
  (forall p, p ∉ Application.request_paths FILE_UPLOAD_PATH uuid4_hex files s ->
             Application.disk s' !! p = Application.disk s !! p).
Proof.
  intros Hkeep Hrun. unfold Application.upload_files in Hrun.
  rewrite Hkeep in Hrun. cbn [negb] in Hrun. unfold bind at 1 in Hrun.
  destruct (Application.save_uploads FILE_UPLOAD_PATH uuid4_hex files [] s)
    as [[paths0|e] s1] eqn:Hsave; [|discriminate].
  destruct (save_uploads_spec _ _ _ _ _ _ _ Hsave) as (-> & Hout & _).
  cbn [app] in Hrun.
  set (paths := Application.request_paths FILE_UPLOAD_PATH uuid4_hex files s) in *.
  unfold bind at 1 in Hrun.
  destruct (recreate_step recreate_index s1) as (s2 & Heq2 & Hdisk2 & _).
  rewrite Heq2 in Hrun.
  unfold bind at 1, Application.run_indexing in Hrun.
  destruct (indexing_run paths _ _) as [result|e]; [|discriminate].
  unfold bind at 1, lift in Hrun.
  destruct (Application.convert_embeddings result) as [result'|e]; [|discriminate].
  unfold bind, ret in Hrun.
  destruct (for_each paths Application.unlink s2) as [[[]|e] s3] eqn:Hdel;
    [|discriminate].
  injection Hrun as Hres Hs. subst s'.
  destruct (unlink_all_spec _ _ _ Hdel) as [_ Hgone]. split.
  - intros p Hp. destruct (Hgone p) as (Hin & _ & _). exact (Hin Hp).
  - intros p Hp. destruct (Hgone p) as (_ & _ & Hrest).
    rewrite (Hrest Hp), Hdisk2. by apply Hout.
Qed.

Lemma upload_files_removes_files_on_return_witness :
  (forall p, p ∈ Application.request_paths "/srv/file-upload" Examples.token
                   [Examples.report_pdf; Examples.notes_txt] Examples.quiet_server ->
             Application.disk
               (snd (Application.upload_files "/srv/file-upload" Examples.token
                       Examples.indexing_ok [Examples.report_pdf; Examples.notes_txt]
                       None None Examples.quiet_server)) !! p = None) /\
  (forall p, p ∉ Application.request_paths "/srv/file-upload" Examples.token
                   [Examples.report_pdf; Examples.notes_txt] Examples.quiet_server ->
             Application.disk
               (snd (Application.upload_files "/srv/file-upload" Examples.token
                       Examples.indexing_ok [Examples.report_pdf; Examples.notes_txt]
                       None None Examples.quiet_server)) !! p
             = Application.disk Examples.quiet_server !! p).
Proof.
  apply (upload_files_removes_files_on_return
           "/srv/file-upload" Examples.token Examples.indexing_ok
           [Examples.report_pdf; Examples.notes_txt] None None
           Examples.quiet_server _
           (<["documents" :=
                Application.PList
                  [Application.PDocument
                     {| Application.doc_content := "text";
                        Application.doc_embedding := Application.PlainList [1; 2]%Z |}]]>
              Examples.indexed_result)).
  - reflexivity.
  - vm_compute. reflexivity.
Defined.

(** The request of the witness: both files are gone, the bystander stays. *)
Example upload_then_gone :
  Application.disk
    (snd (Application.upload_files "/srv/file-upload" Examples.token
            Examples.indexing_ok [Examples.report_pdf; Examples.notes_txt]
            None None Examples.quiet_server))
  = {[ "/srv/file-upload/keep.me" := [] ]}.
Proof. vm_compute. reflexivity. Qed.

(** C3, as stated, fails: with [keep_files] false and an indexing run that
    raises, the error leaves the handler and the uploaded file is still in
    the upload directory. *)
Lemma upload_files_keeps_files_when_indexing_raises :
  Application.request_paths "/srv/file-upload" Examples.token
                            [Examples.report_pdf] Examples.quiet_server
  = ["/srv/file-upload/0_report.pdf"] /\
  fst (Application.upload_files "/srv/file-upload" Examples.token
         Examples.indexing_down [Examples.report_pdf]
         (Some false) (Some false) Examples.quiet_server)
  = Raised (mk_exn OSError "connection refused") /\
  Application.disk
    (snd (Application.upload_files "/srv/file-upload" Examples.token
            Examples.indexing_down [Examples.report_pdf]
            (Some false) (Some false) Examples.quiet_server))
    !! "/srv/file-upload/0_report.pdf"
  = Some [Byte.x25; Byte.x50; Byte.x44; Byte.x46].
Proof. vm_compute. repeat split. Qed.


(* ===================================================================== *)
(** * Properties of dev/evaluation/main.py *)
(* ===================================================================== *)

Section RunExperiment.

Import Evaluation.

Variables (labels pipeline : Type).
Variable mkdtemp_name : nat -> string.
Variable add_eval_data : string -> outcome (list Document).
Variable get_all_labels_aggregated : list Document -> outcome labels.
Variable load_from_yaml : string -> string -> outcome pipeline.
Variable execute_eval_run :
  eval_run_args labels pipeline -> gmap (string * string) string -> outcome unit.



(** The store [run_experiment] hands to [get_eval_labels_and_paths] holds
    the evaluation documents in ['eval_docs']; its default index is empty. *)
Lemma eval_ds_default_index_empty (docs : list Document) :
  get_all_documents
    (fill_index "eval_docs" docs
       (delete_index "label_index"
          (delete_index "eval_docs" new_InMemoryDocumentStore)))
  = [].
Proof.
  unfold get_all_documents, fill_index, delete_index, new_InMemoryDocumentStore.
  cbn [index indexes]. rewrite lookup_insert_ne by done.
  rewrite !lookup_delete_ne by done. reflexivity.
Qed.

(** The two ways a call can go.  When it raises, at whichever step, the
    clean-up has not run: the directory is there and its finalizer is
    attached.  When it returns, the clean-up was its last step. *)
Lemma run_experiment_cases
      (exp_name eval_filename pipeline_path run_name : string)
      (query_params : list (string * list (string * Z))) (w : world) :
  (exists e w1,
      run_experiment labels pipeline mkdtemp_name add_eval_data
        get_all_labels_aggregated load_from_yaml execute_eval_run
        exp_name eval_filename pipeline_path run_name query_params w
      = (Raised e, w1) /\
      temp_dir_of mkdtemp_name w ∈ dirs w1 /\
      temp_dir_of mkdtemp_name w ∈ finalizers w1) \/
  (exists w1,
      run_experiment labels pipeline mkdtemp_name add_eval_data
        get_all_labels_aggregated load_from_yaml execute_eval_run
        exp_name eval_filename pipeline_path run_name query_params w
      = (Returned tt,
         rmtree (temp_dir_of mkdtemp_name w) (detach (temp_dir_of mkdtemp_name w) w1))).
Proof.
  unfold run_experiment, temp_dir_of.
  set (d := mkdtemp_name (mkdtemp_calls w)).
  set (temp_dir := {| name := d |}).
  set (w0 := {| dirs := {[d]} ∪ dirs w; files := files w;
                mkdtemp_calls := S (mkdtemp_calls w);
                finalizers := {[d]} ∪ finalizers w |}).
  assert (Hnew : new_TemporaryDirectory mkdtemp_name w = (Returned temp_dir, w0))
    by reflexivity.
  rewrite (bind_returned _ _ _ _ _ Hnew). cbv zeta.
  assert (Hdir0 : d ∈ dirs w0) by (apply elem_of_union_l; by apply elem_of_singleton).
  assert (Hfin0 : d ∈ finalizers w0)
    by (apply elem_of_union_l; by apply elem_of_singleton).
  assert (Hidx : index_eval_labels add_eval_data new_InMemoryDocumentStore
                                   eval_filename w0
                 = match add_eval_data eval_filename with
                   | Returned docs =>
                       (Returned
                          (fill_index "eval_docs" docs
                             (delete_index "label_index"
                                (delete_index "eval_docs" new_InMemoryDocumentStore))),
                        w0)
                   | Raised e => (Raised e, w0)
                   end).
  { unfold index_eval_labels, bind, lift, ret.
    by destruct (add_eval_data eval_filename). }
  destruct (add_eval_data eval_filename) as [docs|e0].
  2:{ left. exists e0, w0. split; [exact (bind_raised _ _ _ _ _ Hidx)|done]. }
  rewrite (bind_returned _ _ _ _ _ Hidx).
  match goal with
  | |- context [get_eval_labels_and_paths _ _ ?ds _] => set (eval_ds := ds)
  end.
  assert (Hget : get_eval_labels_and_paths labels get_all_labels_aggregated
                                           eval_ds temp_dir w0
                 = match get_all_labels_aggregated [] with
                   | Returned ls => (Returned (ls, []), w0)
                   | Raised e => (Raised e, w0)
                   end).
  { unfold get_eval_labels_and_paths. subst eval_ds.
    rewrite eval_ds_default_index_empty. cbn [write_docs].
    unfold bind, lift, ret. by destruct (get_all_labels_aggregated []). }
  destruct (get_all_labels_aggregated []) as [ls|e0].
  2:{ left. exists e0, w0. split; [exact (bind_raised _ _ _ _ _ Hget)|done]. }
  rewrite (bind_returned _ _ _ _ _ Hget). cbv beta iota.
  rewrite bind_lift.
  destruct (load_from_yaml pipeline_path "query") as [qp|e0]; [|left; eauto].
  rewrite bind_lift.
  destruct (load_from_yaml pipeline_path "indexing") as [ip|e0]; [|left; eauto].
  unfold bind.
  destruct (execute_eval_run _ (files w0)) as [[]|e0]; [|left; eauto].
  right. exists w0. unfold cleanup, modify. subst temp_dir. cbn [name].
  rewrite (bool_decide_eq_true_2 _ Hfin0). reflexivity.
Qed.

End RunExperiment.



(** The directory of the example run, before, at the moment the error of a
    failing evaluation run leaves [run_experiment], and once the call is
    over. *)
Example run_experiment_raising_run :
  Evaluation.temp_dir_of Examples.tmp_name Examples.tmp_only = "/tmp/tmp0" /\
  Evaluation.run_experiment unit unit Examples.tmp_name Examples.one_doc
    Examples.no_labels Examples.load_ok Examples.eval_run_down
    "exp" "data/eval.json" "pipelines.yaml" "run-1"
    Evaluation.default_query_params Examples.tmp_only
  = (Raised (mk_exn OSError "connection refused"),
     {| Evaluation.dirs := {[ "/tmp/tmp0"; "/tmp" ]}; Evaluation.files := ∅;
        Evaluation.mkdtemp_calls := 1;
        Evaluation.finalizers := {[ "/tmp/tmp0" ]} |}) /\
  Evaluation.run_experiment_to_end unit unit Examples.tmp_name Examples.one_doc
    Examples.no_labels Examples.load_ok Examples.eval_run_down
    "exp" "data/eval.json" "pipelines.yaml" "run-1"
    Evaluation.default_query_params Examples.tmp_only
  = (Raised (mk_exn OSError "connection refused"),
     {| Evaluation.dirs := {[ "/tmp" ]}; Evaluation.files := ∅;
        Evaluation.mkdtemp_calls := 1; Evaluation.finalizers := ∅ |}).
Proof. vm_compute. repeat split. Qed.

(** X21. When [run_experiment] raises, at whichever step, the temporary
    directory it created is still there as the error leaves it. *)
Lemma run_experiment_raise_keeps_temp_dir
      (labels pipeline : Type) (mkdtemp_name : nat -> string)
      (add_eval_data : string -> outcome (list Evaluation.Document))
      (get_all_labels_aggregated : list Evaluation.Document -> outcome labels)
      (load_from_yaml : string -> string -> outcome pipeline)
      (execute_eval_run :
         Evaluation.eval_run_args labels pipeline ->
         gmap (string * string) string -> outcome unit)
      (exp_name eval_filename pipeline_path run_name : string)
      (query_params : list (string * list (string * Z)))
      (w w' : Evaluation.world) (e : exn) :
  Evaluation.run_experiment labels pipeline mkdtemp_name add_eval_data
    get_all_labels_aggregated load_from_yaml execute_eval_run
    exp_name eval_filename pipeline_path run_name query_params w
  = (Raised e, w') ->
  Evaluation.temp_dir_of mkdtemp_name w ∈ Evaluation.dirs w'.
Proof.
  intros Hrun.
  destruct (run_experiment_cases labels pipeline mkdtemp_name add_eval_data
              get_all_labels_aggregated load_from_yaml execute_eval_run
              exp_name eval_filename pipeline_path run_name query_params w)
    as [(e1 & w1 & Heq & Hdir & _)|(w1 & Heq)];
    rewrite Heq in Hrun; [|discriminate].
  injection Hrun as _ <-. exact Hdir.
Qed.

(* ===================================================================== *)
(** * Properties of system/fine_tune_model.py *)
(* ===================================================================== *)

Section FineTuneReader.

Import FineTune.

Variable reader : Type.
Variable FARMReader : string -> outcome reader.
Variable train : reader -> train_args -> M world unit.

(** [os.path.isdir] raises nothing, so the handler with [os.mkdir] is never
    entered: the first [try] statement changes nothing. *)
Lemma create_output_dir_noop (save_dir : string) (w : world) :
  create_output_dir save_dir w = (Returned tt, w).
Proof. reflexivity. Qed.

(** Hence the reader is loaded and trained in the world the call started in. *)
Lemma fine_tune_trains_in_initial_world
      (model_name_or_path data_dir train_filename save_dir : string)
      (use_gpu : bool) (w : world) :
  fine_tune_reader_model reader FARMReader train
                         model_name_or_path data_dir train_filename save_dir use_gpu w
  = load_and_train reader FARMReader train
                   model_name_or_path data_dir train_filename save_dir use_gpu w.
Proof. reflexivity. Qed.

(** X24. When the model loads and the training returns,
    [fine_tune_reader_model] prints the closing message with the output
    directory and returns, the world otherwise as the training left it. *)
Lemma fine_tune_success
      (model_name_or_path data_dir train_filename save_dir : string)
      (use_gpu : bool) (r : reader) (w w' : world) :
  FARMReader model_name_or_path = Returned r ->
  train r {| data_dir := data_dir; train_filename := train_filename;
             use_gpu := use_gpu; batch_size := 12; n_epochs := 1;
             max_seq_len := 384; save_dir := save_dir; num_processes := 1 |} w
  = (Returned tt, w') ->
  fine_tune_reader_model reader FARMReader train
                         model_name_or_path data_dir train_filename save_dir use_gpu w
  = (Returned tt,
     {| dirs := dirs w';
        stdout := stdout w' ++
                  ["Model fine-tuning done. Model saved in directory: " +:+ save_dir] |}).
Proof.
  intros HR HT. rewrite fine_tune_trains_in_initial_world.
  unfold load_and_train, bind, lift, try_except. rewrite HR, HT. reflexivity.
Qed.

End FineTuneReader.

(** C7. The output directory is not created: the first [try] statement
    leaves the world as it is, the training runs in the world the function
    was called in, and on a world without [./model] the training call finds
    its [save_dir] missing. *)
Theorem output_dir_not_created_before_training :
  (forall save_dir w, FineTune.create_output_dir save_dir w = (Returned tt, w)) /\
  (forall (reader : Type) FARMReader train m d t save_dir g w,
      FineTune.fine_tune_reader_model reader FARMReader train m d t save_dir g w
      = FineTune.load_and_train reader FARMReader train m d t save_dir g w) /\
  FineTune.fine_tune_reader_model unit (fun _ => Returned tt) Examples.probing_train
    "deepset/xlm-roberta-base-squad2" "../data/deepset_covid_qa/dataset"
    "COVID-QA copy-el.json" "./model" true Examples.empty_world
  = (Returned tt,
     {| FineTune.dirs := ∅;
        FineTune.stdout :=
          ["save_dir missing";
           "Model fine-tuning done. Model saved in directory: ./model"] |}).
Proof.
  split; [|split].
  - intros. reflexivity.
  - intros. reflexivity.
  - vm_compute. reflexivity.
Qed.

(** C8. An exception (an instance of [Exception]) raised by the training
    call is caught: its text is printed and [fine_tune_reader_model] returns
    normally. *)
Theorem training_exception_is_swallowed
        (reader : Type) (FARMReader : string -> outcome reader)
        (train : reader -> FineTune.train_args -> M FineTune.world unit)
        (model_name_or_path data_dir train_filename save_dir : string)
        (use_gpu : bool) (r : reader) (e : exn) (w w' : FineTune.world) :
  FARMReader model_name_or_path = Returned r ->
  train r {| FineTune.data_dir := data_dir; FineTune.train_filename := train_filename;
             FineTune.use_gpu := use_gpu; FineTune.batch_size := 12;
             FineTune.n_epochs := 1; FineTune.max_seq_len := 384;
             FineTune.save_dir := save_dir; FineTune.num_processes := 1 |} w
  = (Raised e, w') ->
  isinstance e Exception = true ->
  FineTune.fine_tune_reader_model reader FARMReader train
    model_name_or_path data_dir train_filename save_dir use_gpu w
  = (Returned tt,
     {| FineTune.dirs := FineTune.dirs w';
        FineTune.stdout := FineTune.stdout w' ++ [exn_str e] |}).
Proof.
  intros HR HT HE. rewrite fine_tune_trains_in_initial_world.
  unfold FineTune.load_and_train, bind, lift, try_except.
  rewrite HR. unfold bind. rewrite HT, HE. reflexivity.
Qed.

Lemma training_exception_is_swallowed_witness :
  FineTune.fine_tune_reader_model unit (fun _ => Returned tt) Examples.failing_train
    "deepset/xlm-roberta-base-squad2" "../data/deepset_covid_qa/dataset"
    "COVID-QA copy-el.json" "./model" true Examples.empty_world
  = (Returned tt,
     {| FineTune.dirs := ∅; FineTune.stdout := ["CUDA out of memory"] |}).
Proof.
  apply (training_exception_is_swallowed
           unit (fun _ => Returned tt) Examples.failing_train
           "deepset/xlm-roberta-base-squad2" "../data/deepset_covid_qa/dataset"
           "COVID-QA copy-el.json" "./model" true tt
           (mk_exn RuntimeError "CUDA out of memory")
           Examples.empty_world Examples.empty_world).
  - reflexivity.
  - reflexivity.
  - reflexivity.
Defined.

(** X25. An exception of the training call that is no instance of
    [Exception] (an interrupt) is not caught: it leaves
    [fine_tune_reader_model] and nothing is printed. *)
Lemma training_interrupt_propagates
      (reader : Type) (FARMReader : string -> outcome reader)
      (train : reader -> FineTune.train_args -> M FineTune.world unit)
      (m d t save_dir : string) (g : bool) (r : reader) (e : exn)
      (w w' : FineTune.world) :
  FARMReader m = Returned r ->
  train r {| FineTune.data_dir := d; FineTune.train_filename := t;
             FineTune.use_gpu := g; FineTune.batch_size := 12;
             FineTune.n_epochs := 1; FineTune.max_seq_len := 384;
             FineTune.save_dir := save_dir; FineTune.num_processes := 1 |} w
  = (Raised e, w') ->
  isinstance e Exception = false ->
  FineTune.fine_tune_reader_model reader FARMReader train m d t save_dir g w
  = (Raised e, w').
Proof.
  intros HR HT HE. rewrite fine_tune_trains_in_initial_world.
  unfold FineTune.load_and_train, bind, lift, try_except.
  rewrite HR. unfold bind. rewrite HT, HE. reflexivity.
Qed.

(* ===================================================================== *)
(** * Properties of main.py *)
(* ===================================================================== *)

Section CliMain.

Import Cli.

Variable subprocess_result : list string -> outcome unit.

(** [--launch] given: the server is started, whatever [--ingest_data] is. *)
Lemma main_launch (ingest : bool) (trace : list event) :
  snd (main subprocess_result {| launch_flag := true; ingest_data_flag := ingest |} trace)
  = trace ++ [SubprocessRun ["uvicorn"; "application:app"; "--host"; "0.0.0.0";
                             "--port"; "8000"]].
Proof. reflexivity. Qed.

Lemma main_ingest (trace : list event) :
  snd (main subprocess_result {| launch_flag := false; ingest_data_flag := true |} trace)
  = trace ++ [SubprocessRun ["python3"; "index_data/ingest_data_to_doc_store.py"]].
Proof. reflexivity. Qed.

Lemma main_help (trace : list event) :
  main subprocess_result {| launch_flag := false; ingest_data_flag := false |} trace
  = (Returned tt, trace ++ [PrintHelp]).
Proof. reflexivity. Qed.

End CliMain.

(** C9. Each invocation performs exactly one action.  With [--launch], alone
    or with [--ingest_data], it is the server launch and no ingestion; with
    [--ingest_data] only, the ingestion; with neither flag the usage help is
    printed, nothing is started and [main] returns normally. *)
Theorem main_runs_exactly_one_action (subprocess_result : list string -> outcome unit) :
  (forall args, length (snd (Cli.main subprocess_result args [])) = 1) /\
  (forall ingest,
      snd (Cli.main subprocess_result
                    {| Cli.launch_flag := true; Cli.ingest_data_flag := ingest |} [])
      = [Cli.SubprocessRun ["uvicorn"; "application:app"; "--host"; "0.0.0.0";
                            "--port"; "8000"]]) /\
  snd (Cli.main subprocess_result
                {| Cli.launch_flag := false; Cli.ingest_data_flag := true |} [])
  = [Cli.SubprocessRun ["python3"; "index_data/ingest_data_to_doc_store.py"]] /\
  Cli.main subprocess_result
           {| Cli.launch_flag := false; Cli.ingest_data_flag := false |} []
  = (Returned tt, [Cli.PrintHelp]).
Proof.
  split; [|split; [|split]].
  - intros [[] []]; reflexivity.
  - intros ingest. apply main_launch.
  - apply main_ingest.
  - apply main_help.
Qed.
(* ===================================================================== *)
(** * Dictionaries *)
(* ===================================================================== *)

Section DictFacts.

Import DataHandling.

Context {K V : Type} `{EqDecision K}.

Lemma dict_get_set (k k' : K) (v : V) (d : list (K * V)) :
  dict_get k' (dict_set k v d) = if decide (k = k') then Some v else dict_get k' d.
Proof.
  induction d as [|[k0 v0] d IH]; cbn [dict_set dict_get].
  - destruct (decide (k = k')); reflexivity.
  - destruct (decide (k0 = k)) as [->|Hne]; cbn [dict_get].
    + destruct (decide (k = k')); reflexivity.
    + destruct (decide (k0 = k')) as [->|Hne'].
      * destruct (decide (k = k')); [congruence|reflexivity].
      * exact IH.
Qed.

(** Binding a key the dictionary has leaves the keys and their order. *)
Lemma dict_set_keys (k : K) (v : V) (d : list (K * V)) :
  is_Some (dict_get k d) -> List.map fst (dict_set k v d) = List.map fst d.
Proof.
  induction d as [|[k0 v0] d IH]; cbn [dict_set dict_get]; intros Hin.
  - by destruct Hin.
  - destruct (decide (k0 = k)); [reflexivity|].
    cbn [List.map fst]. f_equal. by apply IH.
Qed.

(** Binding a new key puts the item last. *)
Lemma dict_set_fresh (k : K) (v : V) (d : list (K * V)) :
  k ∉ List.map fst d -> dict_set k v d = d ++ [(k, v)].
Proof.
  induction d as [|[k0 v0] d IH]; cbn [dict_set List.map fst]; intros Hk;
    [reflexivity|].
  apply not_elem_of_cons in Hk as [Hne Hk].
  destruct (decide (k0 = k)); [congruence|].
  cbn [app]. f_equal. by apply IH.
Qed.

End DictFacts.

(* ===================================================================== *)
(** * Properties of remove_second_answers_occurrence *)
(* ===================================================================== *)

Section RemoveSecondAnswers.

Import DataHandling.

Lemma remove_second_loop_copies {V} (items : list (string * V)) :
  forall (new_result : list (string * V)) (key_count : nat),
    NoDup (List.map fst (new_result ++ items)) ->
    key_count <= 1 ->
    (key_count = 1 -> "answers" ∈ List.map fst new_result) ->
    remove_second_loop items new_result key_count = new_result ++ items.
Proof.
  induction items as [|[key value] items IH]; intros new_result key_count Hnd Hle Hseen.
  - cbn [remove_second_loop]. by rewrite app_nil_r.
  - assert (Hfresh : key ∉ List.map fst new_result).
    { rewrite map_app in Hnd. apply NoDup_app in Hnd as (_ & Hdisj & _).
      intros Hin. apply (Hdisj key Hin). cbn [List.map fst]. by left. }
    assert (Hnext : NoDup (List.map fst ((new_result ++ [(key, value)]) ++ items))).
    { by rewrite <- app_assoc. }
    cbn [remove_second_loop].
    destruct (String.eqb key "answers") eqn:Hkey.
    + apply String.eqb_eq in Hkey. subst key.
      assert (key_count = 0) as -> by (destruct key_count as [|[|]]; [done| |lia];
                                        exfalso; by apply Hfresh, Hseen).
      cbn [Nat.add Nat.eqb]. rewrite (dict_set_fresh _ _ _ Hfresh).
      rewrite IH; [by rewrite <- app_assoc|exact Hnext|lia|].
      intros _. rewrite map_app. apply elem_of_app. right. cbn. by left.
    + rewrite (dict_set_fresh _ _ _ Hfresh).
      rewrite IH; [by rewrite <- app_assoc|exact Hnext|exact Hle|].
      intros Hc. rewrite map_app. apply elem_of_app. left. by apply Hseen.
Qed.

End RemoveSecondAnswers.

(** X4. A dictionary has each key once, so the counter of
    [remove_second_answers_occurrence] never reaches two: the function
    returns a copy of its argument, with every item, in the same order. *)
Theorem remove_second_answers_occurrence_is_copy
        (V : Type) (result : list (string * V)) :
  NoDup (List.map fst result) ->
  DataHandling.remove_second_answers_occurrence result = result.
Proof.
  intros Hnd. unfold DataHandling.remove_second_answers_occurrence.
  rewrite remove_second_loop_copies; [reflexivity|exact Hnd|lia|lia].
Qed.

(* ===================================================================== *)
(** * Properties of post_process_generator_answers *)
(* ===================================================================== *)

(** X3. On a result whose ["answers"] is a list of answer objects,
    [post_process_generator_answers] returns the result with the same keys
    in the same order and every other key bound as before; ["answers"] holds
    as many answers, in the same order, each with its text passed through
    [remove_incomplete_sentences] and its other content kept. *)
Theorem post_process_generator_answers_rewrites_answers_only
        (sent_tokenize : DataHandling.text -> list DataHandling.text)
        (result : list (string * DataHandling.result_value))
        (answers : list DataHandling.answer_obj) :
  DataHandling.dict_get "answers" result = Some (DataHandling.VAnswers answers) ->
  exists result',
    DataHandling.post_process_generator_answers sent_tokenize result = Returned result' /\
    List.map fst result' = List.map fst result /\
    (forall k, k <> "answers" ->
               DataHandling.dict_get k result' = DataHandling.dict_get k result) /\
    exists answers',
      DataHandling.dict_get "answers" result' = Some (DataHandling.VAnswers answers') /\
      length answers' = length answers /\
      forall i a, answers !! i = Some a ->
        answers' !! i
        = Some {| DataHandling.answer :=
                    DataHandling.remove_incomplete_sentences
                      sent_tokenize (DataHandling.answer a);
                  DataHandling.answer_score := DataHandling.answer_score a |}.
Proof.
  intros Hget. unfold DataHandling.post_process_generator_answers. rewrite Hget.
  eexists. split; [reflexivity|]. split; [|split].
  - apply dict_set_keys. rewrite Hget. eauto.
  - intros k Hk. rewrite dict_get_set. destruct (decide ("answers" = k)); congruence.
  - eexists. split; [|split].
    + rewrite dict_get_set. destruct (decide ("answers" = "answers")); [reflexivity|done].
    + apply length_map.
    + intros i a Hi.
      change (List.map ?f ?l) with (f <$> l).
      rewrite list_lookup_fmap, Hi. reflexivity.
Qed.

(** Without the key the function raises KeyError. *)
Lemma post_process_generator_answers_needs_answers
      (sent_tokenize : DataHandling.text -> list DataHandling.text)
      (result : list (string * DataHandling.result_value)) :
  DataHandling.dict_get "answers" result = None ->
  DataHandling.post_process_generator_answers sent_tokenize result
  = Raised (mk_exn KeyError "'answers'").
Proof.
  intros Hget. unfold DataHandling.post_process_generator_answers.
  rewrite Hget. reflexivity.
Qed.

(* ===================================================================== *)
(** * More on get_query_doc_pairs_from_dpr_file *)
(* ===================================================================== *)

Section DprCharacterisation.

Import DataHandling.

Lemma dpr_inner_spec (ctxs : list positive_ctx) (document : option string) :
  dpr_inner ctxs document
  = match last ctxs with
    | Some c => Some (ctx_text c)
    | None => document
    end.
Proof.
  unfold dpr_inner. revert document.
  induction ctxs as [|c ctxs IH]; intros document; [reflexivity|].
  cbn [fold_left]. rewrite IH.
  destruct ctxs as [|c' ctxs]; [reflexivity|].
  rewrite last_cons_cons.
  destruct (last (c' :: ctxs)) eqn:Hlast; [reflexivity|].
  apply last_None in Hlast. discriminate.
Qed.

Lemma dpr_outer_spec (data : list dpr_record) (l : dpr_locals) :
  dpr_outer data l
  = {| l_question := match last data with
                     | Some d => Some (question d)
                     | None => l_question l
                     end;
       l_document := match last (flat_map positive_ctxs data) with
                     | Some c => Some (ctx_text c)
                     | None => l_document l
                     end |}.
Proof.
  unfold dpr_outer. revert l.
  induction data as [|d data IH]; intros l; [by destruct l|].
  cbn [fold_left flat_map]. rewrite IH. cbn [l_question l_document].
  rewrite dpr_inner_spec, last_app. f_equal.
  - destruct data as [|d' data]; [reflexivity|]. rewrite last_cons_cons.
    destruct (last (d' :: data)) eqn:Hlast; [reflexivity|].
    apply last_None in Hlast. discriminate.
  - destruct (last (flat_map positive_ctxs data)); reflexivity.
Qed.

End DprCharacterisation.

(** X9. [get_query_doc_pairs_from_dpr_file] returns one pair when the file
    has a record and some record has a positive context: the question of
    the last record with the text of the last positive context of the whole
    file, which may be another record's.  With no record, or no positive
    context at all, it raises UnboundLocalError. *)
Theorem dpr_pair_is_last_question_with_last_context
        (data : list DataHandling.dpr_record) :
  DataHandling.get_query_doc_pairs_from_dpr_file data
  = match last data, last (flat_map DataHandling.positive_ctxs data) with
    | Some d, Some c =>
        Returned [ {| DataHandling.pair_question := DataHandling.question d;
                      DataHandling.pair_document := DataHandling.ctx_text c |} ]
    | None, _ => Raised (DataHandling.unbound "question")
    | Some _, None => Raised (DataHandling.unbound "document")
    end.
Proof.
  unfold DataHandling.get_query_doc_pairs_from_dpr_file.
  rewrite dpr_outer_spec. cbn [DataHandling.l_question DataHandling.l_document].
  destruct (last data); [|reflexivity].
  destruct (last (flat_map DataHandling.positive_ctxs data)); reflexivity.
Qed.

(* ===================================================================== *)
(** * More on join_punctuation *)
(* ===================================================================== *)

Section JoinPunctuationTokens.

Import DataHandling.

Lemma str_app_assoc (a b c : string) : (a +:+ b) +:+ c = a +:+ (b +:+ c).
Proof.
  induction a as [|x a IH]; [reflexivity|].
  change (String x ((a +:+ b) +:+ c) = String x (a +:+ (b +:+ c))).
  by rewrite IH.
Qed.

Variable characters : string.

(** One advance of the loop yields the first of the merged tokens and
    leaves the generator where the rest of them start. *)
Lemma run_loop_merged (seq : list string) :
  forall current,
  exists t f,
    run_loop characters current seq = (Yielded t, f) /\
    ((f = AtLastYield [] /\ merged_tokens characters current seq = [t]) \/
     (exists nxt rest,
         f = AtLoopYield nxt rest /\ length rest < length seq /\
         merged_tokens characters current seq
         = t :: merged_tokens characters nxt rest)).
Proof.
  induction seq as [|nxt rest IH]; intros current; cbn [run_loop merged_tokens].
  - eexists _, _. split; [reflexivity|]. by left.
  - destruct (in_characters characters nxt).
    + destruct (IH (current +:+ nxt))
        as (t & f & -> & [[-> Hm]|(n & r & -> & Hlen & Hm)]).
      * eexists _, _. split; [reflexivity|]. by left.
      * eexists _, _. split; [reflexivity|]. right.
        exists n, r. cbn [length]. split; [reflexivity|]. split; [lia|exact Hm].
    + eexists _, _. split; [reflexivity|]. right.
      exists nxt, rest. cbn [length]. split; [reflexivity|]. split; [lia|reflexivity].
Qed.

(** Draining a generator suspended in the loop gives the merged tokens and
    ends with StopIteration, whose value is the empty string. *)
Lemma drain_merged (fuel : nat) :
  forall current seq,
    length seq + 2 <= fuel ->
    drain fuel {| gen_characters := characters; gen_frame := AtLoopYield current seq |}
    = (merged_tokens characters current seq, Some (Stopped (Some ""))).
Proof.
  induction fuel as [|fuel IH]; intros current seq Hfuel; [lia|].
  rewrite drain_S. unfold gen_next. cbn [gen_frame gen_characters].
  destruct (run_loop_merged seq current)
    as (t & f & -> & [[-> Hm]|(n & r & -> & Hlen & Hm)]).
  - destruct fuel as [|fuel]; [lia|]. rewrite Hm. reflexivity.
  - rewrite IH by lia. rewrite Hm. reflexivity.
Qed.

Lemma drain_join_punctuation (x : string) (xs : list string) :
  drain (length (x :: xs) + 1) (join_punctuation (x :: xs) characters)
  = (merged_tokens characters x xs, Some (Stopped (Some ""))).
Proof.
  cbn [length]. replace (S (length xs) + 1) with (S (S (length xs))) by lia.
  rewrite drain_S. unfold gen_next, join_punctuation. cbn [gen_frame gen_characters].
  destruct (run_loop_merged xs x)
    as (t & f & -> & [[-> Hm]|(n & r & -> & Hlen & Hm)]).
  - rewrite Hm. reflexivity.
  - rewrite drain_merged by lia. rewrite Hm. reflexivity.
Qed.

(** Merging loses no character and moves none. *)
Lemma merged_tokens_characters (seq : list string) :
  forall current,
    characters_of (merged_tokens characters current seq)
    = current +:+ characters_of seq.
Proof.
  induction seq as [|nxt rest IH]; intros current; cbn [merged_tokens].
  - reflexivity.
  - destruct (in_characters characters nxt).
    + rewrite IH. cbn [characters_of fold_right]. apply str_app_assoc.
    + cbn [characters_of fold_right]. f_equal. apply IH.
Qed.

(** One token per token that is no punctuation mark, and one for the first. *)
Lemma merged_tokens_length (seq : list string) :
  forall current,
    length (merged_tokens characters current seq)
    = S (length (List.filter (fun t => negb (in_characters characters t)) seq)).
Proof.
  induction seq as [|nxt rest IH]; intros current; cbn [merged_tokens List.filter].
  - reflexivity.
  - destruct (in_characters characters nxt); cbn [negb length]; by rewrite IH.
Qed.

Lemma merged_tokens_no_punctuation (seq : list string) :
  forall current,
    Forall (fun t => in_characters characters t = false) seq ->
    merged_tokens characters current seq = current :: seq.
Proof.
  induction seq as [|nxt rest IH]; intros current Hall; [reflexivity|].
  apply Forall_cons in Hall as [Hnxt Hrest].
  cbn [merged_tokens]. rewrite Hnxt. f_equal. by apply IH.
Qed.

End JoinPunctuationTokens.

(** X10. Iterating [join_punctuation] over a non-empty sequence ends
    normally; the tokens it yields, put end to end, spell exactly the input
    tokens put end to end (no character is lost, added or moved), and there
    is one token for the first input token plus one for every later token
    that is no punctuation mark.  The generator's return value is the empty
    string. *)
Theorem join_punctuation_keeps_characters
        (characters x : string) (xs : list string) :
  exists tokens,
    DataHandling.drain (length (x :: xs) + 1)
                       (DataHandling.join_punctuation (x :: xs) characters)
    = (tokens, Some (DataHandling.Stopped (Some ""))) /\
    DataHandling.characters_of tokens = DataHandling.characters_of (x :: xs) /\
    length tokens
    = S (length (List.filter
                   (fun t => negb (DataHandling.in_characters characters t)) xs)).
Proof.
  exists (DataHandling.merged_tokens characters x xs). split; [|split].
  - apply drain_join_punctuation.
  - apply merged_tokens_characters.
  - apply merged_tokens_length.
Qed.

(** X11. When none of the tokens after the first is a punctuation mark,
    [join_punctuation] yields the input sequence unchanged. *)
Theorem join_punctuation_without_punctuation
        (characters x : string) (xs : list string) :
  Forall (fun t => DataHandling.in_characters characters t = false) xs ->
  DataHandling.drain (length (x :: xs) + 1)
                     (DataHandling.join_punctuation (x :: xs) characters)
  = (x :: xs, Some (DataHandling.Stopped (Some ""))).
Proof.
  intros Hall. rewrite drain_join_punctuation.
  by rewrite merged_tokens_no_punctuation.
Qed.

Lemma join_punctuation_without_punctuation_witness :
  DataHandling.drain 4 (DataHandling.join_punctuation
                          ["Stay"; "at"; "home"] DataHandling.default_characters)
  = (["Stay"; "at"; "home"], Some (DataHandling.Stopped (Some ""))).
Proof.
  apply (join_punctuation_without_punctuation
           DataHandling.default_characters "Stay" ["at"; "home"]).
  repeat constructor.
Defined.

(* ===================================================================== *)
(** * Properties of split_and_translate *)
(* ===================================================================== *)

Section SplitAndTranslate.

Import DataHandling.

Variables (translator preprocessor : Type).
Variable TransformersTranslator : bool -> nat -> outcome translator.
Variable translate_batch_first : translator -> list text -> outcome (list text).
Variable PreProcessor : nat -> outcome preprocessor.
Variable process_contents : preprocessor -> text -> outcome (list text).

Variable pre : preprocessor.
Variable max_seq_len : nat.

(** Past the end of the list the loop is over. *)
Lemma scan_docs_past_end (fuel i : nat) (m : list (nat * list text)) (docs : list text) :
  length docs <= i ->
  scan_docs preprocessor process_contents fuel pre max_seq_len i m docs
  = (Returned m, docs).
Proof.
  intros Hlen. destruct fuel as [|fuel]; [reflexivity|].
  cbn [scan_docs]. by rewrite lookup_ge_None_2.
Qed.

(** Where every document from position [i] on is short, the loop changes
    nothing. *)
Lemma scan_docs_short_from (fuel : nat) :
  forall i (m : list (nat * list text)) (docs : list text),
    (forall j d, i <= j -> docs !! j = Some d -> num_tokens d <= max_seq_len) ->
    scan_docs preprocessor process_contents fuel pre max_seq_len i m docs
    = (Returned m, docs).
Proof.
  induction fuel as [|fuel IH]; intros i m docs Hshort; [reflexivity|].
  cbn [scan_docs]. destruct (docs !! i) as [d|] eqn:Hd; [|reflexivity].
  assert (Hlt : Nat.ltb max_seq_len (num_tokens d) = false).
  { apply Nat.ltb_ge. by apply (Hshort i). }
  rewrite Hlt. apply IH. intros j d' Hj. apply Hshort. lia.
Qed.

(** The loop walks over a run of short documents. *)
Lemma scan_docs_skip_short (k : nat) :
  forall fuel i (m : list (nat * list text)) (docs : list text),
    (forall j d, i <= j < i + k -> docs !! j = Some d -> num_tokens d <= max_seq_len) ->
    i + k <= length docs ->
    scan_docs preprocessor process_contents (k + fuel) pre max_seq_len i m docs
    = scan_docs preprocessor process_contents fuel pre max_seq_len (i + k) m docs.
Proof.
  induction k as [|k IH]; intros fuel i m docs Hshort Hlen.
  - by rewrite Nat.add_0_r.
  - cbn [Nat.add scan_docs].
    destruct (lookup_lt_is_Some_2 docs i) as [d Hd]; [lia|]. rewrite Hd.
    assert (Hlt : Nat.ltb max_seq_len (num_tokens d) = false).
    { apply Nat.ltb_ge. apply (Hshort i); [lia|exact Hd]. }
    rewrite Hlt, IH; [f_equal; lia| |lia].
    intros j d' Hj. apply Hshort. lia.
Qed.

(** One round on a long document: it is popped and its pieces recorded
    under the position it had. *)
Lemma scan_docs_pop (fuel i : nat) (m : list (nat * list text))
      (docs : list text) (doc : text) (pieces : list text) :
  docs !! i = Some doc ->
  max_seq_len < num_tokens doc ->
  process_contents pre doc = Returned pieces ->
  scan_docs preprocessor process_contents (S fuel) pre max_seq_len i m docs
  = scan_docs preprocessor process_contents fuel pre max_seq_len (S i)
              (dict_set i pieces m) (delete i docs).
Proof.
  intros Hdoc Hlong Hproc. cbn [scan_docs].
  apply Nat.ltb_lt in Hlong. by rewrite Hdoc, Hlong, Hproc.
Qed.

(** Where every document is long, the loop pops one and steps over the
    next: the documents at the odd positions stay, unsplit. *)
Lemma scan_docs_all_long (fuel : nat) :
  forall (rest kept : list text) (m : list (nat * list text)),
    length rest <= fuel ->
    Forall (fun d => max_seq_len < num_tokens d) rest ->
    (forall d, d ∈ rest -> exists l, process_contents pre d = Returned l) ->
    exists m',
      scan_docs preprocessor process_contents fuel pre max_seq_len
                (length kept) m (kept ++ rest)
      = (Returned m', kept ++ odd_positions rest).
Proof.
  induction fuel as [|fuel IH]; intros rest kept m Hfuel Hlong Hproc.
  - destruct rest; [|cbn in Hfuel; lia]. exists m. reflexivity.
  - destruct rest as [|x rest].
    + exists m. apply scan_docs_past_end. rewrite app_nil_r. lia.
    + cbn [scan_docs]. rewrite list_lookup_middle by reflexivity.
      apply Forall_cons in Hlong as [Hx Hlong].
      apply Nat.ltb_lt in Hx. rewrite Hx.
      destruct (Hproc x) as [l Hl]; [by left|]. rewrite Hl.
      rewrite delete_middle.
      destruct rest as [|y rest].
      * eexists. cbn [odd_positions]. apply scan_docs_past_end.
        rewrite app_nil_r. lia.
      * apply Forall_cons in Hlong as [_ Hlong].
        destruct (IH rest (kept ++ [y]) (dict_set (length kept) l m))
          as [m' Hm'].
        { cbn [length] in Hfuel. lia. }
        { exact Hlong. }
        { intros d Hd. apply Hproc. by do 2 right. }
        exists m'. rewrite length_app in Hm'. cbn [length] in Hm'.
        rewrite Nat.add_1_r, <- app_assoc in Hm'. cbn [app] in Hm'.
        rewrite <- app_assoc in Hm'. exact Hm'.
Qed.

End SplitAndTranslate.

(** X12. When no document has more than [max_seq_len] tokens,
    [split_and_translate] is one batch translation of the documents: it
    returns what [translate_docs] returns (or raises what it raises) and
    leaves the caller's list as it was. *)
Theorem split_and_translate_short_documents
        (translator preprocessor : Type)
        (TransformersTranslator : bool -> nat -> outcome translator)
        (translate_batch_first :
           translator -> list DataHandling.text -> outcome (list DataHandling.text))
        (PreProcessor : nat -> outcome preprocessor)
        (process_contents :
           preprocessor -> DataHandling.text -> outcome (list DataHandling.text))
        (max_seq_len : nat) (pre : preprocessor) (docs : list DataHandling.text) :
  PreProcessor max_seq_len = Returned pre ->
  Forall (fun d => DataHandling.num_tokens d <= max_seq_len) docs ->
  DataHandling.split_and_translate
    translator preprocessor TransformersTranslator translate_batch_first
    PreProcessor process_contents max_seq_len docs
  = (DataHandling.translate_docs translator TransformersTranslator
                                 translate_batch_first docs false,
     docs).
Proof.
  intros Hpre Hshort. unfold DataHandling.split_and_translate.
  unfold bind at 1, lift. rewrite Hpre. unfold bind at 1.
  rewrite scan_docs_short_from.
  - unfold bind, get, lift.
    destruct (DataHandling.translate_docs _ _ _ docs false); reflexivity.
  - intros j d _ Hd. rewrite Forall_forall in Hshort. apply Hshort.
    by eapply list_elem_of_lookup_2.
Qed.

(** X13. With exactly one document over the limit, that document is taken
    out of the caller's list, split, its pieces translated and joined with
    single spaces, and the joined translation is put into the translated
    batch at the position the document had. *)
Theorem split_and_translate_one_long_document
        (translator preprocessor : Type)
        (TransformersTranslator : bool -> nat -> outcome translator)
        (translate_batch_first :
           translator -> list DataHandling.text -> outcome (list DataHandling.text))
        (PreProcessor : nat -> outcome preprocessor)
        (process_contents :
           preprocessor -> DataHandling.text -> outcome (list DataHandling.text))
        (max_seq_len : nat) (pre : preprocessor)
        (before after pieces t_docs t_pieces : list DataHandling.text)
        (doc : DataHandling.text) :
  PreProcessor max_seq_len = Returned pre ->
  Forall (fun d => DataHandling.num_tokens d <= max_seq_len) (before ++ after) ->
  max_seq_len < DataHandling.num_tokens doc ->
  process_contents pre doc = Returned pieces ->
  DataHandling.translate_docs translator TransformersTranslator translate_batch_first
                              (before ++ after) false = Returned t_docs ->
  DataHandling.translate_docs translator TransformersTranslator translate_batch_first
                              pieces false = Returned t_pieces ->
  DataHandling.split_and_translate
    translator preprocessor TransformersTranslator translate_batch_first
    PreProcessor process_contents max_seq_len (before ++ doc :: after)
  = (Returned (DataHandling.list_insert_at
                 (length before)
                 (DataHandling.join (DataHandling.py " ") t_pieces) t_docs),
     before ++ after).
Proof.
  intros Hpre Hshort Hlong Hproc Hbatch Hpieces.
  rewrite Forall_forall in Hshort.
  unfold DataHandling.split_and_translate.
  unfold bind at 1, lift. rewrite Hpre. unfold bind at 1.
  rewrite length_app. cbn [length].
  rewrite (scan_docs_skip_short _ process_contents pre max_seq_len (length before));
    [|intros j d Hj Hd|rewrite length_app; cbn [length]; lia].
  2:{ apply Hshort, elem_of_app. left.
      rewrite lookup_app_l in Hd by lia. by eapply list_elem_of_lookup_2. }
  cbn [Nat.add DataHandling.scan_docs].
  rewrite list_lookup_middle by reflexivity.
  apply Nat.ltb_lt in Hlong. rewrite Hlong, Hproc, delete_middle.
  rewrite scan_docs_short_from.
  - unfold bind, get, lift. rewrite Hbatch.
    cbn [DataHandling.dict_set DataHandling.insert_translations].
    rewrite Hpieces. reflexivity.
  - intros j d _ Hd. apply Hshort. by eapply list_elem_of_lookup_2.
Qed.

(** X14. The loop pops from the list it iterates over, so the document
    after a popped one is never looked at: when every document is over the
    limit, only those at the first, third, ... position are taken out and
    split, and those at the second, fourth, ... position stay in the
    caller's list and go to the batch translation unsplit. *)
Theorem split_and_translate_skips_every_second_long_document
        (translator preprocessor : Type)
        (TransformersTranslator : bool -> nat -> outcome translator)
        (translate_batch_first :
           translator -> list DataHandling.text -> outcome (list DataHandling.text))
        (PreProcessor : nat -> outcome preprocessor)
        (process_contents :
           preprocessor -> DataHandling.text -> outcome (list DataHandling.text))
        (max_seq_len : nat) (pre : preprocessor) (docs : list DataHandling.text) :
  PreProcessor max_seq_len = Returned pre ->
  Forall (fun d => max_seq_len < DataHandling.num_tokens d) docs ->
  (forall d, d ∈ docs -> exists l, process_contents pre d = Returned l) ->
  snd (DataHandling.split_and_translate
         translator preprocessor TransformersTranslator translate_batch_first
         PreProcessor process_contents max_seq_len docs)
  = DataHandling.odd_positions docs.
Proof.
  intros Hpre Hlong Hproc. unfold DataHandling.split_and_translate.
  unfold bind at 1, lift. rewrite Hpre. unfold bind at 1.
  destruct (scan_docs_all_long _ process_contents pre max_seq_len
                               (length docs) docs [] [] (le_n _) Hlong Hproc)
    as [m' Hscan].
  cbn [app length] in Hscan. rewrite Hscan.
  unfold bind, get, lift.
  destruct (DataHandling.translate_docs _ _ _ _ false); [|reflexivity].
  destruct (DataHandling.insert_translations _ _ _ _ _); reflexivity.
Qed.

(* ===================================================================== *)
(** * Properties of remove_english_text *)
(* ===================================================================== *)


(* ===================================================================== *)
(** * More on split_squad_dataset *)
(* ===================================================================== *)

Section SplitSquadTrain.

Import DataHandling.

Lemma count_articles_shift (data : list article) (counter : Z) :
  fold_left (fun c a => count_paragraphs (paragraphs a) c) data counter
  = (counter + SquadData_count data)%Z.
Proof.
  unfold SquadData_count. revert counter.
  induction data as [|a data IH]; intros counter; cbn [fold_left]; [lia|].
  rewrite IH, (IH (count_paragraphs _ 0)), (count_paragraphs_shift _ counter). lia.
Qed.

Lemma SquadData_count_cons (a : article) (data : list article) :
  SquadData_count (a :: data)
  = (count_paragraphs (paragraphs a) 0 + SquadData_count data)%Z.
Proof.
  unfold SquadData_count at 1. cbn [fold_left]. apply count_articles_shift.
Qed.

(** Shuffling does not change the number of questions. *)
Lemma SquadData_count_Permutation (l1 l2 : list article) :
  Permutation l1 l2 -> SquadData_count l1 = SquadData_count l2.
Proof.
  induction 1 as [|a l1 l2 _ IH|a b l|l1 l2 l3 _ IH1 _ IH2].
  - reflexivity.
  - rewrite !SquadData_count_cons, IH. reflexivity.
  - rewrite !SquadData_count_cons. lia.
  - congruence.
Qed.

Lemma SquadData_count_nonneg (data : list article) : (0 <= SquadData_count data)%Z.
Proof.
  induction data as [|a data IH]; [reflexivity|].
  rewrite SquadData_count_cons.
  pose proof (count_paragraphs_ge (paragraphs a) 0). lia.
Qed.

(** A share of at most the whole rounds to at most the whole. *)
Lemma split_threshold_le (n rnum rden : Z) :
  (0 <= n)%Z -> (0 < rden)%Z -> (0 <= rnum <= rden)%Z ->
  (split_threshold n rnum rden <= n)%Z.
Proof.
  intros Hn Hden Hnum. unfold split_threshold, py_round.
  pose proof (Z.div_mod (n * rnum) rden ltac:(lia)) as Hdm.
  pose proof (Z.mod_pos_bound (n * rnum) rden Hden) as Hmod.
  assert (Hle : (n * rnum <= n * rden)%Z) by nia.
  assert (Hq : (n * rnum / rden <= n)%Z).
  { apply Z.div_le_upper_bound; lia. }
  destruct (Z.eq_dec (n * rnum / rden)%Z n) as [Heq|Hne].
  - assert (Hzero : ((n * rnum) mod rden = 0)%Z) by nia.
    rewrite Hzero, Heq. change (2 * 0)%Z with 0%Z.
    assert (Hlt : (0 <? rden)%Z = true) by (apply Z.ltb_lt; lia).
    rewrite Hlt. lia.
  - assert (Hlt : (n * rnum / rden < n)%Z) by lia.
    repeat match goal with |- context [if ?b then _ else _] => destruct b end; lia.
Qed.

End SplitSquadTrain.

(** X8. With a ratio between 0 and 1 and at least one article,
    [split_squad_dataset] never writes an empty train file: the article
    with which the counter reaches the threshold, at the latest the last
    one, stays in the train split. *)
Theorem split_squad_dataset_train_not_empty
        (shuffle : list DataHandling.article -> list DataHandling.article)
        (data : list DataHandling.article) (rnum rden : Z) :
  Permutation (shuffle data) data ->
  data <> [] ->
  (0 < rden)%Z -> (0 <= rnum <= rden)%Z ->
  DataHandling.train_file (DataHandling.split_squad_dataset shuffle data rnum rden) <> [].
Proof.
  intros Hperm Hne Hden Hnum. unfold DataHandling.split_squad_dataset.
  set (threshold := DataHandling.split_threshold _ _ _).
  assert (Hthr : (threshold <= DataHandling.SquadData_count (shuffle data))%Z).
  { rewrite (SquadData_count_Permutation _ _ Hperm).
    apply split_threshold_le; [apply SquadData_count_nonneg|lia|lia]. }
  destruct (split_loop_moved threshold (shuffle data) 0 [])
    as (moved & rest & Hdata & Hsnd & Hall & _).
  destruct (DataHandling.split_loop threshold (shuffle data) 0 [])
    as [counter test_set].
  cbn [snd app] in Hsnd. subst test_set. cbn [DataHandling.train_file].
  rewrite Hdata, drop_app_length. intros ->. rewrite app_nil_r in Hdata.
  rewrite Hdata in Hthr.
  destruct moved as [|a moved].
  { apply Hne. apply Permutation_nil. rewrite <- Hdata. by symmetry. }
  unfold DataHandling.SquadData_count in Hthr. rewrite count_articles_fold in Hthr.
  rewrite Forall_forall in Hall.
  assert (Hin : List.last (DataHandling.cumulative_counts (a :: moved) 0) 0%Z
                ∈ DataHandling.cumulative_counts (a :: moved) 0).
  { set (l := DataHandling.cumulative_counts (a :: moved) 0).
    assert (Hl : l <> []) by discriminate.
    destruct (exists_last Hl) as (l' & x & ->).
    rewrite last_last. apply elem_of_app. right. by left. }
  specialize (Hall _ Hin). cbn beta in Hall. lia.
Qed.

Lemma split_squad_dataset_train_not_empty_witness :
  DataHandling.train_file
    (DataHandling.split_squad_dataset (@rev _) Examples.squad_3_7 1 10) <> [].
Proof.
  apply (split_squad_dataset_train_not_empty (@rev _) Examples.squad_3_7 1 10).
  - symmetry. apply Permutation_rev.
  - discriminate.
  - reflexivity.
  - split; discriminate.
Defined.

(* ===================================================================== *)
(** * More on the query handlers *)
(* ===================================================================== *)

Section QueryHandlerKeys.

Import Application.

Lemma backfill_dom (res : gmap string pyobj) :
  dom (backfill res) = dom res ∪ {[ "answers"; "documents" ]}.
Proof.
  apply set_eq. intros k.
  rewrite elem_of_dom, backfill_lookup, elem_of_union, elem_of_dom.
  rewrite elem_of_union, !elem_of_singleton.
  destruct (res !! k) as [v|].
  - split; [intros _; left; eauto|eauto].
  - case_bool_decide as Hk.
    + split; [intros _; by right|eauto].
    + split; [intros [? [=]]|]. intros [[? [=]]|Hor]. contradiction.
Qed.

End QueryHandlerKeys.

(** X16. Both query handlers return the pipeline's mapping with every key
    the pipeline bound left as it was; the only keys they add are
    ["answers"] and ["documents"].  The handler appends one record to the
    log, and the response in it is the mapping it returns. *)
Theorem query_handlers_keep_pipeline_keys
        (run : string -> gmap string Application.pyobj ->
               outcome (gmap string Application.pyobj))
        (request : Application.QueryRequest)
        (res : gmap string Application.pyobj)
        (log : list Application.log_record) :
  run (Application.query request) (Application.params_or_empty request)
  = Returned res ->
  exists resp,
    Application.ask_retriever_reader_pipeline run request log
    = (Returned resp,
       log ++ [{| Application.log_request := request;
                  Application.log_response := resp |}]) /\
    Application.ask_rag_pipeline run request log
    = (Returned resp,
       log ++ [{| Application.log_request := request;
                  Application.log_response := resp |}]) /\
    (forall k v, res !! k = Some v -> resp !! k = Some v) /\
    dom resp = dom res ∪ {[ "answers"; "documents" ]}.
Proof.
  intros Hrun. exists (Application.backfill res). split; [|split; [|split]].
  - by apply ask_retriever_reader_pipeline_returns.
  - by apply ask_rag_pipeline_returns.
  - intros k v Hk. by rewrite backfill_lookup, Hk.
  - apply backfill_dom.
Qed.

Lemma query_handlers_keep_pipeline_keys_witness :
  exists resp,
    Application.ask_retriever_reader_pipeline
      Examples.answers_only_run Examples.a_request []
    = (Returned resp,
       [] ++ [{| Application.log_request := Examples.a_request;
                 Application.log_response := resp |}]) /\
    Application.ask_rag_pipeline Examples.answers_only_run Examples.a_request []
    = (Returned resp,
       [] ++ [{| Application.log_request := Examples.a_request;
                 Application.log_response := resp |}]) /\
    (forall k v, Examples.answers_only !! k = Some v -> resp !! k = Some v) /\
    dom resp = dom Examples.answers_only ∪ {[ "answers"; "documents" ]}.
Proof.
  apply (query_handlers_keep_pipeline_keys
           Examples.answers_only_run Examples.a_request Examples.answers_only []).
  reflexivity.
Defined.

(* ===================================================================== *)
(** * More on the file upload *)
(* ===================================================================== *)

Section UploadFilesMore.

Import Application.

Variable FILE_UPLOAD_PATH : string.
Variable uuid4_hex : nat -> string.
Variable indexing_run :
  list string -> bool -> gmap string (list Byte.byte) -> outcome (gmap string pyobj).





(** When the paths of the request differ from one another and the first
    loop ends without an error, every file is on disk after it, with the
    bytes that were uploaded. *)
Lemma save_uploads_content (files : list UploadFile) :
  forall (acc : list string) (s : server) (paths : list string) (s1 : server),
    NoDup (request_paths FILE_UPLOAD_PATH uuid4_hex files s) ->
    save_uploads FILE_UPLOAD_PATH uuid4_hex files acc s = (Returned paths, s1) ->
    forall i f,
      files !! i = Some f ->
      disk s1 !! upload_path FILE_UPLOAD_PATH (uuid4_hex (uuid_calls s + i)) f
      = Some (file_bytes f).
Proof.
  induction files as [|f0 files IH]; intros acc s paths s1 Hnd Hrun i f Hi; [done|].
  destruct (can_write s (upload_path FILE_UPLOAD_PATH (uuid4_hex (uuid_calls s)) f0))
    eqn:Hcan.
  2:{ destruct (save_uploads_cons_raise FILE_UPLOAD_PATH uuid4_hex f0 files acc s Hcan)
        as [e He].
      rewrite He in Hrun. discriminate. }
  rewrite (save_uploads_cons _ _ _ _ _ _ Hcan) in Hrun.
  match type of Hrun with
  | save_uploads _ _ files ?acc' ?s' = _ => set (s0 := s') in *; set (a' := acc') in *
  end.
  rewrite (request_paths_cons FILE_UPLOAD_PATH uuid4_hex f0 files s s0) in Hnd
    by reflexivity.
  apply NoDup_cons in Hnd as [Hfresh Hnd].
  destruct i as [|i].
  - injection Hi as <-. rewrite Nat.add_0_r.
    destruct (save_uploads_spec _ _ _ _ _ _ _ Hrun) as (_ & Hout & _).
    rewrite (Hout _ Hfresh). subst s0. cbn [disk]. apply lookup_insert_eq.
  - specialize (IH a' s0 paths s1 Hnd Hrun i f Hi). subst s0. cbn [uuid_calls] in IH.
    replace (uuid_calls s + S i) with (S (uuid_calls s) + i) by lia. exact IH.
Qed.



End UploadFilesMore.





(** A request whose file name has a separator in it: the directory it names
    does not exist, [open] raises, and the request ends before the
    attribute is set and before anything is indexed. *)
Example upload_files_stops_at_failed_write :
  Application.upload_files "/srv/file-upload" Examples.token Examples.indexing_ok
                           [Examples.nested_txt] None (Some true)
                           Examples.quiet_server
  = (Raised (mk_exn FileNotFoundError "/srv/file-upload/0_a/b.txt"),
     {| Application.disk := {[ "/srv/file-upload/keep.me" := [] ]};
        Application.directories := {[ "/srv"; "/srv/file-upload" ]};
        Application.uuid_calls := 1;
        Application.ds_recreate_index := false |}).
Proof. vm_compute. reflexivity. Qed.

(** X19. With [keep_files] true, a request that returns a response leaves
    every uploaded file in the upload directory, under its path and with
    the bytes that were uploaded (the paths of the request differing from
    one another), and changes no other file. *)
Theorem upload_files_keeps_files_on_request
        (FILE_UPLOAD_PATH : string) (uuid4_hex : nat -> string)
        (indexing_run : list string -> bool -> gmap string (list Byte.byte) ->
                        outcome (gmap string Application.pyobj))
        (files : list Application.UploadFile)
        (keep_files recreate_index : option bool)
        (s s' : Application.server) (response : gmap string Application.pyobj) :
  Application.truthy keep_files = true ->
  NoDup (Application.request_paths FILE_UPLOAD_PATH uuid4_hex files s) ->
  Application.upload_files FILE_UPLOAD_PATH uuid4_hex indexing_run
                           files keep_files recreate_index s
  = (Returned response, s') ->
  (forall i f,
      files !! i = Some f ->
      Application.disk s'
        !! Application.upload_path FILE_UPLOAD_PATH
             (uuid4_hex (Application.uuid_calls s + i)) f
      = Some (Application.file_bytes f)) /\
  (forall p, p ∉ Application.request_paths FILE_UPLOAD_PATH uuid4_hex files s ->
             Application.disk s' !! p = Application.disk s !! p).
Proof.
  intros Hkeep Hnd Hrun.
  unfold Application.upload_files in Hrun. rewrite Hkeep in Hrun.
  cbn [negb] in Hrun. unfold bind at 1 in Hrun.
  destruct (Application.save_uploads FILE_UPLOAD_PATH uuid4_hex files [] s)
    as [[paths0|e] s1] eqn:Hsave; [|discriminate].
  pose proof (save_uploads_content FILE_UPLOAD_PATH uuid4_hex files [] s paths0 s1
                                   Hnd Hsave) as Hcontent.
  destruct (save_uploads_spec _ _ _ _ _ _ _ Hsave) as (-> & Hout & _).
  assert (Hdisk : Application.disk s' = Application.disk s1).
  { unfold bind at 1 in Hrun.
    destruct (Application.truthy recreate_index); unfold modify, ret in Hrun.
    all: unfold bind at 1, Application.run_indexing in Hrun;
      destruct (indexing_run _ _ _) as [result|e]; [|discriminate];
      unfold bind at 1, lift in Hrun;
      destruct (Application.convert_embeddings result) as [result'|e];
      [|discriminate];
      unfold bind, ret in Hrun; by injection Hrun as _ <-. }
  rewrite Hdisk. split; [exact Hcontent|exact Hout].
Qed.

Lemma upload_files_keeps_files_on_request_witness :
  (forall i f,
      [Examples.report_pdf; Examples.notes_txt] !! i = Some f ->
      Application.disk
        (snd (Application.upload_files "/srv/file-upload" Examples.token
                Examples.indexing_ok [Examples.report_pdf; Examples.notes_txt]
                (Some true) None Examples.quiet_server))
        !! Application.upload_path "/srv/file-upload"
             (Examples.token (Application.uuid_calls Examples.quiet_server + i)) f
      = Some (Application.file_bytes f)) /\
  (forall p, p ∉ Application.request_paths "/srv/file-upload" Examples.token
                   [Examples.report_pdf; Examples.notes_txt] Examples.quiet_server ->
             Application.disk
               (snd (Application.upload_files "/srv/file-upload" Examples.token
                       Examples.indexing_ok [Examples.report_pdf; Examples.notes_txt]
                       (Some true) None Examples.quiet_server)) !! p
             = Application.disk Examples.quiet_server !! p).
Proof.
  apply (upload_files_keeps_files_on_request
           "/srv/file-upload" Examples.token Examples.indexing_ok
           [Examples.report_pdf; Examples.notes_txt] (Some true) None
           Examples.quiet_server _
           (<["documents" :=
                Application.PList
                  [Application.PDocument
                     {| Application.doc_content := "text";
                        Application.doc_embedding := Application.PlainList [1; 2]%Z |}]]>
              Examples.indexed_result)).
  - reflexivity.
  - apply (bool_decide_unpack _). vm_compute. exact I.
  - vm_compute. reflexivity.
Defined.


(* ===================================================================== *)
(** * More on dev/evaluation/main.py *)
(* ===================================================================== *)

Section EvalLabelsAndPaths.

Import Evaluation.










Variable tempdir : TemporaryDirectory.


End EvalLabelsAndPaths.



(** The same call on a disk without the directory: [open] raises and
    nothing is written. *)
Example get_eval_labels_and_paths_missing_directory :
  Evaluation.get_eval_labels_and_paths
    unit Examples.no_labels Examples.store_of_two
    {| Evaluation.name := "/tmp/tmp0" |} Examples.tmp_only
  = (Raised (mk_exn FileNotFoundError "/tmp/tmp0/d1.txt"), Examples.tmp_only).
Proof. vm_compute. reflexivity. Qed.

Section EvaluateReader.

Import Evaluation.

Variable report : Type.
Variable os_path_dirname : string -> string.
Variable eval_on_file : Z -> string -> string -> outcome report.

Lemma eval_for_each_spec (data_dir eval_filename : string) (rep : Z -> report)
      (ks : list Z) :
  forall (reports : list (Z * report)) (top_k0 : Z),
    (forall k, k ∈ ks -> eval_on_file k data_dir eval_filename = Returned (rep k)) ->
    exists reports',
      eval_for_each report eval_on_file ks data_dir eval_filename reports top_k0
      = (Returned reports', List.last ks top_k0) /\
      forall k, DataHandling.dict_get k reports'
                = if bool_decide (k ∈ ks) then Some (rep k)
                  else DataHandling.dict_get k reports.
Proof.
  induction ks as [|k0 ks IH]; intros reports top_k0 Heval.
  - exists reports. split; [reflexivity|]. intros k.
    rewrite bool_decide_eq_false_2; [reflexivity|apply not_elem_of_nil].
  - cbn [eval_for_each]. unfold bind at 1, set_top_k, modify.
    unfold bind at 1, run_eval_on_file.
    rewrite (Heval k0) by (by left).
    destruct (IH (DataHandling.dict_set k0 (rep k0) reports) k0)
      as (reports' & -> & Hget).
    { intros k Hk. apply Heval. by right. }
    exists reports'. rewrite last_cons_default. split; [reflexivity|].
    intros k. rewrite Hget, dict_get_set.
    destruct (decide (k0 = k)) as [->|Hne].
    + rewrite (bool_decide_eq_true_2 (k ∈ k :: ks)) by (by left).
      by destruct (bool_decide (k ∈ ks)).
    + destruct (decide (k ∈ ks)) as [Hin|Hnin].
      * rewrite !bool_decide_eq_true_2; [reflexivity|by right|done].
      * rewrite !bool_decide_eq_false_2; [reflexivity| |done].
        intros Hin. apply elem_of_cons in Hin as [->|Hin]; contradiction.
Qed.

End EvaluateReader.

(** X23. Given a list of [top_k] values, [evaluate_reader] ignores its
    [top_k] argument: it returns a dictionary with exactly one report for
    every value of the list, the one of an evaluation run with
    [reader.top_k] set to that value, and it leaves [reader.top_k] at the
    last value of the list (untouched when the list is empty, where the
    dictionary is empty and no evaluation runs). *)
Theorem evaluate_reader_top_k_list
        (report : Type) (os_path_dirname : string -> string)
        (eval_on_file : Z -> string -> string -> outcome report)
        (rep : Z -> report)
        (eval_filename : string) (top_k : option Z) (ks : list Z) (top_k0 : Z) :
  (forall k, k ∈ ks ->
             eval_on_file k (os_path_dirname eval_filename) eval_filename
             = Returned (rep k)) ->
  exists reports,
    Evaluation.evaluate_reader report os_path_dirname eval_on_file
                               eval_filename top_k (Some ks) top_k0
    = (Returned (Evaluation.Reports report reports), List.last ks top_k0) /\
    forall k, DataHandling.dict_get k reports
              = if bool_decide (k ∈ ks) then Some (rep k) else None.
Proof.
  intros Heval. unfold Evaluation.evaluate_reader.
  destruct (eval_for_each_spec report eval_on_file
              (os_path_dirname eval_filename) eval_filename rep ks [] top_k0 Heval)
    as (reports & Hrun & Hget).
  exists reports. unfold bind. rewrite Hrun. split; [reflexivity|exact Hget].
Qed.

Lemma evaluate_reader_top_k_list_witness :
  exists reports,
    Evaluation.evaluate_reader Z Examples.dirname_data Examples.report_top_k
                               "data/eval.json" (Some 7%Z) (Some [1; 5; 10]%Z) 3%Z
    = (Returned (Evaluation.Reports Z reports), List.last [1; 5; 10]%Z 3%Z) /\
    forall k, DataHandling.dict_get k reports
              = if bool_decide (k ∈ [1; 5; 10]%Z) then Some k else None.
Proof.
  apply (evaluate_reader_top_k_list
           Z Examples.dirname_data Examples.report_top_k (fun k => k)
           "data/eval.json" (Some 7%Z) [1; 5; 10]%Z 3%Z).
  intros k _. reflexivity.
Defined.

Lemma run_experiment_raise_keeps_temp_dir_witness :
  Evaluation.temp_dir_of Examples.tmp_name Examples.tmp_only
  ∈ Evaluation.dirs
      (snd (Evaluation.run_experiment unit unit Examples.tmp_name Examples.one_doc
              Examples.no_labels Examples.load_ok Examples.eval_run_down
              "exp" "data/eval.json" "pipelines.yaml" "run-1"
              Evaluation.default_query_params Examples.tmp_only)).
Proof.
  apply (run_experiment_raise_keeps_temp_dir
           unit unit Examples.tmp_name Examples.one_doc Examples.no_labels
           Examples.load_ok Examples.eval_run_down
           "exp" "data/eval.json" "pipelines.yaml" "run-1"
           Evaluation.default_query_params Examples.tmp_only _
           (mk_exn OSError "connection refused")).
  vm_compute. reflexivity.
Defined.

(* ===================================================================== *)
(** * More on system/fine_tune_model.py *)
(* ===================================================================== *)

(** X26. An error raised while the reader model is loaded is outside the
    [try]: it leaves [fine_tune_reader_model], whatever its class, with
    nothing printed and nothing changed. *)
Theorem model_loading_error_propagates
        (reader : Type) (FARMReader : string -> outcome reader)
        (train : reader -> FineTune.train_args -> M FineTune.world unit)
        (model_name_or_path data_dir train_filename save_dir : string)
        (use_gpu : bool) (e : exn) (w : FineTune.world) :
  FARMReader model_name_or_path = Raised e ->
  FineTune.fine_tune_reader_model reader FARMReader train
    model_name_or_path data_dir train_filename save_dir use_gpu w
  = (Raised e, w).
Proof.
  intros HR. rewrite fine_tune_trains_in_initial_world.
  unfold FineTune.load_and_train, bind, lift. rewrite HR. reflexivity.
Qed.

Lemma model_loading_error_propagates_witness :
  FineTune.fine_tune_reader_model unit
    (fun _ => Raised (mk_exn OSError "model not found")) Examples.failing_train
    "no/such-model" "data" "train.json" "./model" true Examples.empty_world
  = (Raised (mk_exn OSError "model not found"), Examples.empty_world).
Proof.
  apply (model_loading_error_propagates
           unit (fun _ => Raised (mk_exn OSError "model not found"))
           Examples.failing_train
           "no/such-model" "data" "train.json" "./model" true).
  reflexivity.
Defined.

Lemma fine_tune_success_witness :
  FineTune.fine_tune_reader_model unit (fun _ => Returned tt) Examples.quiet_train
    "deepset/xlm-roberta-base-squad2" "data" "train.json" "./model" true
    Examples.empty_world
  = (Returned tt,
     {| FineTune.dirs := FineTune.dirs Examples.empty_world;
        FineTune.stdout :=
          FineTune.stdout Examples.empty_world ++
          ["Model fine-tuning done. Model saved in directory: " +:+ "./model"] |}).
Proof.
  apply (fine_tune_success
           unit (fun _ => Returned tt) Examples.quiet_train
           "deepset/xlm-roberta-base-squad2" "data" "train.json" "./model" true tt
           Examples.empty_world Examples.empty_world).
  - reflexivity.
  - reflexivity.
Defined.

Lemma training_interrupt_propagates_witness :
  FineTune.fine_tune_reader_model unit (fun _ => Returned tt)
    Examples.interrupted_train
    "deepset/xlm-roberta-base-squad2" "data" "train.json" "./model" true
    Examples.empty_world
  = (Raised (mk_exn KeyboardInterrupt ""), Examples.empty_world).
Proof.
  apply (training_interrupt_propagates
           unit (fun _ => Returned tt) Examples.interrupted_train
           "deepset/xlm-roberta-base-squad2" "data" "train.json" "./model" true tt
           (mk_exn KeyboardInterrupt "") Examples.empty_world Examples.empty_world).
  - reflexivity.
  - reflexivity.
  - reflexivity.
Defined.

Lemma remove_incomplete_sentences_one_line_witness :
  DataHandling.remove_incomplete_sentences
    Examples.one_sentence (DataHandling.py "Stay home.")
  = DataHandling.described_remove_incomplete_sentences
      Examples.one_sentence (DataHandling.py "Stay home.").
Proof.
  apply (remove_incomplete_sentences_one_line
           Examples.one_sentence (DataHandling.py "Stay home.")).
  apply (bool_decide_unpack _). vm_compute. exact I.
Defined.

Lemma split_squad_dataset_dev_below_witness :
  (DataHandling.SquadData_count
     (snd (DataHandling.split_loop 5 Examples.squad_3_7_40 0 [])) < 5)%Z /\
  (DataHandling.SquadData_count
     (DataHandling.dev_file
        (DataHandling.split_squad_dataset (fun d => d) Examples.squad_3_7_40 1 10))
   < 5)%Z.
Proof.
  destruct (split_squad_dataset_dev_below (fun d => d) Examples.squad_3_7_40 5)
    as [Hloop Hfile].
  - reflexivity.
  - split; [exact Hloop|]. apply Hfile. reflexivity.
Defined.

Lemma split_squad_dataset_printed_witness :
  fst (DataHandling.split_loop 5 Examples.squad_3_7_40 0 []) = 10%Z /\
  DataHandling.printed_dev_instances
    (DataHandling.split_squad_dataset (fun d => d) Examples.squad_3_7_40 1 10)
  = 10%Z.
Proof.
  destruct (split_squad_dataset_printed (fun d => d) Examples.squad_3_7_40 5 10)
    as [Hloop Hprinted].
  - reflexivity.
  - split; [exact Hloop|]. apply Hprinted. reflexivity.
Defined.

Lemma post_process_generator_answers_rewrites_answers_only_witness :
  exists result',
    DataHandling.post_process_generator_answers
      Examples.one_sentence Examples.rag_result = Returned result' /\
    List.map fst result' = List.map fst Examples.rag_result /\
    (forall k, k <> "answers" ->
               DataHandling.dict_get k result'
               = DataHandling.dict_get k Examples.rag_result) /\
    exists answers',
      DataHandling.dict_get "answers" result'
      = Some (DataHandling.VAnswers answers') /\
      length answers'
      = length [ {| DataHandling.answer := DataHandling.py "Stay home. Drink a lot of";
                    DataHandling.answer_score := 7 |} ] /\
      forall i a,
        [ {| DataHandling.answer := DataHandling.py "Stay home. Drink a lot of";
             DataHandling.answer_score := 7 |} ] !! i = Some a ->
        answers' !! i
        = Some {| DataHandling.answer :=
                    DataHandling.remove_incomplete_sentences
                      Examples.one_sentence (DataHandling.answer a);
                  DataHandling.answer_score := DataHandling.answer_score a |}.
Proof.
  apply (post_process_generator_answers_rewrites_answers_only
           Examples.one_sentence Examples.rag_result).
  reflexivity.
Defined.

Lemma remove_second_answers_occurrence_is_copy_witness :
  DataHandling.remove_second_answers_occurrence Examples.rag_result
  = Examples.rag_result.
Proof.
  apply (remove_second_answers_occurrence_is_copy _ Examples.rag_result).
  apply (bool_decide_unpack _). vm_compute. exact I.
Defined.

Lemma split_and_translate_short_documents_witness :
  DataHandling.split_and_translate
    unit unit Examples.same_translator Examples.translate_same
    Examples.word_preprocessor Examples.words 2
    [Examples.two_words; Examples.two_words]
  = (DataHandling.translate_docs unit Examples.same_translator
                                 Examples.translate_same
                                 [Examples.two_words; Examples.two_words] false,
     [Examples.two_words; Examples.two_words]).
Proof.
  apply (split_and_translate_short_documents
           unit unit Examples.same_translator Examples.translate_same
           Examples.word_preprocessor Examples.words 2 tt
           [Examples.two_words; Examples.two_words]).
  - reflexivity.
  - apply (bool_decide_unpack _). vm_compute. exact I.
Defined.

Lemma split_and_translate_one_long_document_witness :
  DataHandling.split_and_translate
    unit unit Examples.same_translator Examples.translate_same
    Examples.word_preprocessor Examples.words 2
    ([Examples.two_words] ++ Examples.three_words :: [Examples.two_words])
  = (Returned
       (DataHandling.list_insert_at
          (length [Examples.two_words])
          (DataHandling.join (DataHandling.py " ")
                             (DataHandling.split_on 32 Examples.three_words []))
          [Examples.two_words; Examples.two_words]),
     [Examples.two_words] ++ [Examples.two_words]).
Proof.
  apply (split_and_translate_one_long_document
           unit unit Examples.same_translator Examples.translate_same
           Examples.word_preprocessor Examples.words 2 tt
           [Examples.two_words] [Examples.two_words]
           (DataHandling.split_on 32 Examples.three_words [])
           [Examples.two_words; Examples.two_words]
           (DataHandling.split_on 32 Examples.three_words [])
           Examples.three_words).
  - reflexivity.
  - apply (bool_decide_unpack _). vm_compute. exact I.
  - apply (bool_decide_unpack _). vm_compute. exact I.
  - reflexivity.
  - reflexivity.
  - reflexivity.
Defined.

Lemma split_and_translate_skips_every_second_long_document_witness :
  snd (DataHandling.split_and_translate
         unit unit Examples.same_translator Examples.translate_same
         Examples.word_preprocessor Examples.words 2
         [Examples.three_words; Examples.three_more])
  = DataHandling.odd_positions [Examples.three_words; Examples.three_more].
Proof.
  apply (split_and_translate_skips_every_second_long_document
           unit unit Examples.same_translator Examples.translate_same
           Examples.word_preprocessor Examples.words 2 tt
           [Examples.three_words; Examples.three_more]).
  - reflexivity.
  - apply (bool_decide_unpack _). vm_compute. exact I.
  - intros d _. eexists. reflexivity.
Defined.

Example split_and_translate_one_long_document_run :
  DataHandling.split_and_translate
    unit unit Examples.same_translator Examples.translate_same
    Examples.word_preprocessor Examples.words 2
    [Examples.two_words; Examples.three_words; Examples.two_words]
  = (Returned [Examples.two_words; Examples.three_words; Examples.two_words],
     [Examples.two_words; Examples.two_words]).
Proof. vm_compute. reflexivity. Qed.

(* ===================================================================== *)
(** * split_and_translate with two long documents *)
(* ===================================================================== *)

Section TwoLongDocuments.

Import DataHandling.

Lemma list_insert_at_length {A} (l1 l2 : list A) (x : A) :
  list_insert_at (length l1) x (l1 ++ l2) = l1 ++ x :: l2.
Proof.
  unfold list_insert_at. by rewrite take_app_length, drop_app_length.
Qed.

End TwoLongDocuments.

(** X27. With two documents over the limit and short documents between
    them, the second one is recorded under the position it has after the
    first was popped, one less than its own: its translation is put back one
    place too early, before the translation of the document that preceded
    it. *)
Theorem split_and_translate_misplaces_second_long_document
        (translator preprocessor : Type)
        (TransformersTranslator : bool -> nat -> outcome translator)
        (translate_batch_first :
           translator -> list DataHandling.text -> outcome (list DataHandling.text))
        (PreProcessor : nat -> outcome preprocessor)
        (process_contents :
           preprocessor -> DataHandling.text -> outcome (list DataHandling.text))
        (max_seq_len : nat) (pre : preprocessor)
        (before between after : list DataHandling.text)
        (last_between doc1 doc2 : DataHandling.text)
        (pieces1 pieces2 t_pieces1 t_pieces2 : list DataHandling.text)
        (t_before t_between t_after : list DataHandling.text)
        (t_last_between : DataHandling.text) :
  PreProcessor max_seq_len = Returned pre ->
  Forall (fun d => DataHandling.num_tokens d <= max_seq_len)
         (before ++ (between ++ [last_between]) ++ after) ->
  max_seq_len < DataHandling.num_tokens doc1 ->
  max_seq_len < DataHandling.num_tokens doc2 ->
  process_contents pre doc1 = Returned pieces1 ->
  process_contents pre doc2 = Returned pieces2 ->
  DataHandling.translate_docs translator TransformersTranslator translate_batch_first
                              (before ++ (between ++ [last_between]) ++ after) false
  = Returned (t_before ++ (t_between ++ [t_last_between]) ++ t_after) ->
  length t_before = length before ->
  length t_between = length between ->
  DataHandling.translate_docs translator TransformersTranslator translate_batch_first
                              pieces1 false = Returned t_pieces1 ->
  DataHandling.translate_docs translator TransformersTranslator translate_batch_first
                              pieces2 false = Returned t_pieces2 ->
  DataHandling.split_and_translate
    translator preprocessor TransformersTranslator translate_batch_first
    PreProcessor process_contents max_seq_len
    (before ++ doc1 :: (between ++ [last_between]) ++ doc2 :: after)
  = (Returned
       (t_before
          ++ DataHandling.join (DataHandling.py " ") t_pieces1
          :: t_between
          ++ DataHandling.join (DataHandling.py " ") t_pieces2
          :: t_last_between
          :: t_after),
     before ++ (between ++ [last_between]) ++ after).
Proof.
  intros Hpre Hshort Hlong1 Hlong2 Hproc1 Hproc2 Hbatch Hlb Hlm Hp1 Hp2.
  rewrite Forall_forall in Hshort.
  set (mid := between ++ [last_between]) in *.
  assert (Hmid : length mid = S (length between)).
  { subst mid. rewrite length_app. cbn. lia. }
  unfold DataHandling.split_and_translate.
  unfold bind at 1, lift. rewrite Hpre. unfold bind at 1.
  (* up to the first long document *)
  replace (length (before ++ doc1 :: mid ++ doc2 :: after))
    with (length before + S (length between + S (S (length after))))
    by (rewrite ?length_app; cbn [length]; rewrite ?length_app; cbn [length]; lia).
  rewrite (scan_docs_skip_short _ process_contents pre max_seq_len (length before));
    [|intros j d Hj Hd
     |rewrite ?length_app; cbn [length]; rewrite ?length_app; cbn [length]; lia].
  2:{ apply Hshort, elem_of_app. left.
      rewrite lookup_app_l in Hd by lia. by eapply list_elem_of_lookup_2. }
  rewrite Nat.add_0_l.
  rewrite (scan_docs_pop _ process_contents pre max_seq_len _ _ _ _ doc1 pieces1);
    [|by apply list_lookup_middle|exact Hlong1|exact Hproc1].
  rewrite delete_middle. cbn [DataHandling.dict_set].
  (* over the short documents between the two *)
  rewrite (scan_docs_skip_short _ process_contents pre max_seq_len (length between));
    [|intros j d Hj Hd
     |rewrite ?length_app; cbn [length]; rewrite ?length_app; cbn [length]; lia].
  2:{ apply Hshort. rewrite app_assoc in Hd.
      rewrite lookup_app_l in Hd
        by (rewrite ?length_app; cbn [length]; rewrite ?length_app; cbn [length]; lia).
      rewrite app_assoc. apply elem_of_app. left.
      by eapply list_elem_of_lookup_2. }
  rewrite (app_assoc before mid (doc2 :: after)).
  replace (S (length before) + length between)
    with (length (before ++ mid))
    by (rewrite ?length_app; cbn [length]; rewrite ?length_app; cbn [length]; lia).
  rewrite (scan_docs_pop _ process_contents pre max_seq_len _ _ _ _ doc2 pieces2);
    [|by apply list_lookup_middle|exact Hlong2|exact Hproc2].
  rewrite delete_middle.
  rewrite scan_docs_short_from.
  2:{ intros j d _ Hd. apply Hshort. rewrite app_assoc.
      by eapply list_elem_of_lookup_2. }
  unfold bind, get, lift. rewrite <- app_assoc, Hbatch.
  cbn [DataHandling.dict_set].
  destruct (decide (length before = length (before ++ mid))) as [Heq|_].
  { rewrite length_app in Heq. lia. }
  cbn [DataHandling.insert_translations]. rewrite Hp1.
  rewrite <- Hlb, list_insert_at_length. rewrite Hp2.
  replace (length (before ++ mid))
    with (length (t_before
                    ++ DataHandling.join (DataHandling.py " ") t_pieces1 :: t_between))
    by (rewrite ?length_app; cbn [length]; rewrite ?length_app; cbn [length]; lia).
  rewrite <- (app_assoc t_between [t_last_between] t_after).
  change (t_before ++ ?x :: t_between ++ [t_last_between] ++ t_after)
    with (t_before ++ (x :: t_between) ++ ([t_last_between] ++ t_after)).
  rewrite (app_assoc t_before), list_insert_at_length.
  rewrite <- app_assoc. reflexivity.
Qed.

Lemma split_and_translate_misplaces_second_long_document_witness :
  DataHandling.split_and_translate
    unit unit Examples.same_translator Examples.translate_same
    Examples.word_preprocessor Examples.words 2
    ([Examples.two_words]
       ++ Examples.three_words
       :: ([] ++ [Examples.two_words]) ++ Examples.three_more :: [Examples.two_words])
  = (Returned
       ([Examples.two_words]
          ++ DataHandling.join (DataHandling.py " ")
                               (DataHandling.split_on 32 Examples.three_words [])
          :: []
          ++ DataHandling.join (DataHandling.py " ")
                               (DataHandling.split_on 32 Examples.three_more [])
          :: Examples.two_words
          :: [Examples.two_words]),
     [Examples.two_words] ++ ([] ++ [Examples.two_words]) ++ [Examples.two_words]).
Proof.
  apply (split_and_translate_misplaces_second_long_document
           unit unit Examples.same_translator Examples.translate_same
           Examples.word_preprocessor Examples.words 2 tt
           [Examples.two_words] [] [Examples.two_words]
           Examples.two_words Examples.three_words Examples.three_more
           (DataHandling.split_on 32 Examples.three_words [])
           (DataHandling.split_on 32 Examples.three_more [])
           (DataHandling.split_on 32 Examples.three_words [])
           (DataHandling.split_on 32 Examples.three_more [])
           [Examples.two_words] [] [Examples.two_words] Examples.two_words).
  - reflexivity.
  - apply (bool_decide_unpack _). vm_compute. exact I.
  - apply (bool_decide_unpack _). vm_compute. exact I.
  - apply (bool_decide_unpack _). vm_compute. exact I.
  - reflexivity.
  - reflexivity.
  - reflexivity.
  - reflexivity.
  - reflexivity.
  - reflexivity.
  - reflexivity.
Defined.

(** The request of the witness: the second long document comes back before
    the short one it followed. *)
Example split_and_translate_two_long_documents_run :
  fst (DataHandling.split_and_translate
         unit unit Examples.same_translator Examples.translate_same
         Examples.word_preprocessor Examples.words 2
         [Examples.two_words; Examples.three_words; Examples.two_words;
          Examples.three_more; Examples.two_words])
  = Returned [Examples.two_words; Examples.three_words; Examples.three_more;
              Examples.two_words; Examples.two_words].
Proof. vm_compute. reflexivity. Qed.
